(** * M-Pesa payment gateway: validation utilities and payment service

  A shallow embedding of [src/utils/validation.ts],
  [src/services/mpesa.service.ts], [src/types/mpesa.types.ts] and the
  callback handler of [src/controllers/payment.controller.ts], followed by
  the properties of the phone/amount normaliser, the token cache, the
  payment initiator and the two status reconciliation paths. *)

From Stdlib Require Import ZArith NArith QArith Qpower Qabs List String Ascii Bool Lia.
From Stdlib Require Import SpecFloat DecimalString DecimalZ DecimalPos.
Import ListNotations.

Set Implicit Arguments.

(** ** The fragment of JavaScript the sources rely on *)

Module JS.

(** A JavaScript string is a sequence of UTF-16 code units. *)
Definition code_unit := N.
Definition jsstring := list code_unit.

(** String literals of the sources are ASCII. *)
Definition lit (s : string) : jsstring :=
  map N_of_ascii (list_ascii_of_string s).

Fixpoint eqb (a b : jsstring) : bool :=
  match a, b with
  | [], [] => true
  | x :: a', y :: b' => N.eqb x y && eqb a' b'
  | _, _ => false
  end.

(** [s.startsWith(prefix)] *)
Fixpoint startsWith (s prefix : jsstring) {struct prefix} : bool :=
  match prefix, s with
  | [], _ => true
  | p :: prefix', c :: s' => N.eqb c p && startsWith s' prefix'
  | _ :: _, [] => false
  end.

(** [s.substring(start)] *)
Definition substring (s : jsstring) (start : nat) : jsstring := skipn start s.

(** A string is truthy when it is not empty. *)
Definition truthy (s : jsstring) : bool :=
  match s with [] => false | _ :: _ => true end.

(** What a truthiness test lets through of a string that may be
    [undefined]: a string that is there and not empty. *)
Definition if_truthy (x : option jsstring) : option jsstring :=
  match x with
  | Some s => if truthy s then Some s else None
  | None => None
  end.

(** [x || d] for [x] a string that may be [undefined]. *)
Definition or_else (x : option jsstring) (d : jsstring) : jsstring :=
  match if_truthy x with
  | Some s => s
  | None => d
  end.

(** The class [\s] of ECMAScript regular expressions: WhiteSpace and
    LineTerminator code points. *)
Definition is_whitespace (c : code_unit) : bool :=
  existsb (N.eqb c)
    [9; 10; 11; 12; 13; 32; 160; 5760; 8232; 8233; 8239; 8287; 12288; 65279]%N
  || ((8192 <=? c) && (c <=? 8202))%N.

(** The class [[0-9]]. *)
Definition is_digit (c : code_unit) : bool := ((48 <=? c) && (c <=? 57))%N.

(** A JavaScript number is an IEEE 754 binary64 value. *)
Definition prec : Z := 53.
Definition emax : Z := 1024.
Definition number := spec_float.
Definition is_double (x : number) : Prop := valid_binary prec emax x = true.

Definition NaN : number := S754_nan.
Definition Infinity : number := S754_infinity false.

(** The number denoted by an integer literal (exact below 2^53). *)
Definition num (z : Z) : number := binary_normalize prec emax z 0 false.

(** The number denoted by the decimal literal [n / 10^k]: the double
    nearest to it, which is the correctly rounded quotient. *)
Definition decimal (n : Z) (k : positive) : number :=
  SFdiv prec emax (num n) (num (Z.pow_pos 10 k)).

(** [x <= y], [x >= y] and [x === y] on numbers. *)
Definition le (x y : number) : bool := SFleb x y.
Definition ge (x y : number) : bool := SFleb y x.
Definition strict_eq (x y : number) : bool := SFeqb x y.

(** [Number.isFinite(x)] *)
Definition isFinite (x : number) : bool :=
  match x with
  | S754_zero _ | S754_finite _ _ _ => true
  | S754_infinity _ | S754_nan => false
  end.

(** The rational a finite number denotes. *)
Definition value (x : number) : option Q :=
  match x with
  | S754_zero _ => Some 0
  | S754_finite s m e =>
      Some (inject_Z (if s then Zneg m else Zpos m) * Qpower 2 e)
  | S754_infinity _ | S754_nan => None
  end.

(** The two ways a call completes. *)
Inductive completion (A : Type) : Type :=
| Returned (a : A)
| Thrown (message : jsstring).
Arguments Thrown {A} message.

(** The class [\w]. *)
Definition is_word (c : code_unit) : bool :=
  (((48 <=? c) && (c <=? 57)) || ((65 <=? c) && (c <=? 90)) || (c =? 95)
   || ((97 <=? c) && (c <=? 122)))%N.

(** [s.trimStart()], [s.trimEnd()] and [s.trim()]: what they remove is
    the whitespace of the class [\s]. *)
Fixpoint trimStart (s : jsstring) : jsstring :=
  match s with
  | c :: s' => if is_whitespace c then trimStart s' else s
  | [] => []
  end.

Definition trimEnd (s : jsstring) : jsstring := rev (trimStart (rev s)).

Definition trim (s : jsstring) : jsstring := trimEnd (trimStart s).

(** [a.join(separator)] *)
Fixpoint join (separator : jsstring) (a : list jsstring) : jsstring :=
  match a with
  | [] => []
  | [x] => x
  | x :: a' => x ++ separator ++ join separator a'
  end.

End JS.

Import JS.

(** ** [src/utils/validation.ts] *)

Module Validation.

(** [phoneNumber.replace(/[\s\-\+]/g, '')] *)
Definition stripped (c : code_unit) : bool :=
  is_whitespace c || N.eqb c 45 || N.eqb c 43.

Definition clean (phoneNumber : jsstring) : jsstring :=
  filter (fun c => negb (stripped c)) phoneNumber.

(** [[17]] *)
Definition is_1_or_7 (c : code_unit) : bool := N.eqb c 49 || N.eqb c 55.

(** [[17][0-9]{8}$] *)
Definition subscriber (s : jsstring) : bool :=
  match s with
  | c :: ds => is_1_or_7 c && Nat.eqb (List.length ds) 8 && forallb is_digit ds
  | [] => false
  end.

(** [/^(254|0)[17][0-9]{8}$/.test(s)] *)
Definition kenyanPhoneRegex (s : jsstring) : bool :=
  if startsWith s (lit "254") then subscriber (substring s 3)
  else if startsWith s (lit "0") then subscriber (substring s 1)
  else false.

Definition validatePhoneNumber (phoneNumber : jsstring) : bool :=
  let cleaned := clean phoneNumber in
  kenyanPhoneRegex cleaned.

Definition formatPhoneNumber (phoneNumber : jsstring) : completion jsstring :=
  let cleaned := clean phoneNumber in
  let cleaned :=
    if startsWith cleaned (lit "07") || startsWith cleaned (lit "01")
    then lit "254" ++ substring cleaned 1
    else cleaned in
  if negb (startsWith cleaned (lit "254"))
  then Thrown (lit "Invalid phone number format")
  else Returned cleaned.

Definition validateAmount (amount : number) : bool :=
  ge amount (num 1) && le amount (num 70000) && isFinite amount.

(** [/^254[0-9]{9}$/.test(s)], the pattern of [phoneNumberSchema] *)
Definition phoneNumberSchema_pattern (s : jsstring) : bool :=
  startsWith s (lit "254")
  && Nat.eqb (List.length (substring s 3)) 9
  && forallb is_digit (substring s 3).

(** [[^\w\s\-_.]] *)
Definition unsafe (c : code_unit) : bool :=
  negb (is_word c || is_whitespace c || N.eqb c 45 || N.eqb c 95 || N.eqb c 46).

Definition sanitizeString (input : jsstring) : jsstring :=
  filter (fun c => negb (unsafe c)) (trim input).

End Validation.

Import Validation.

(** ** [src/types/mpesa.types.ts]

  Each interface is a record in a module of its name.  The fields of a
  provider response that the service tests for absence are optional. *)

Module MpesaConfig.
Inductive Environment := sandbox | production.
Record t := {
  consumerKey : jsstring;
  consumerSecret : jsstring;
  businessShortCode : jsstring;
  passkey : jsstring;
  environment : Environment;
  callbackBaseUrl : jsstring
}.
End MpesaConfig.

Module STKPushRequest.
Inductive TransactionTypes := CustomerPayBillOnline | CustomerBuyGoodsOnline.
Record t := {
  BusinessShortCode : jsstring;
  Password : jsstring;
  Timestamp : jsstring;
  TransactionType : TransactionTypes;
  Amount : number;
  PartyA : jsstring;
  PartyB : jsstring;
  PhoneNumber : jsstring;
  CallBackURL : jsstring;
  AccountReference : jsstring;
  TransactionDesc : jsstring
}.
End STKPushRequest.

Module STKPushResponse.
Record t := {
  MerchantRequestID : option jsstring;
  CheckoutRequestID : option jsstring;
  ResponseCode : option jsstring;
  ResponseDescription : option jsstring;
  CustomerMessage : option jsstring
}.
End STKPushResponse.

Module STKPushCallback.
(** [Value: string | number] *)
Inductive value := VString (s : jsstring) | VNumber (n : number).
Record item := { Name : jsstring; Value : value }.
Record metadata := { Item : list item }.
Record callback := {
  MerchantRequestID : jsstring;
  CheckoutRequestID : jsstring;
  ResultCode : number;
  ResultDesc : jsstring;
  CallbackMetadata : option metadata
}.
Record body := { stkCallback : callback }.
Record t := { Body : body }.
End STKPushCallback.

Inductive Status := pending | success | failed | cancelled.

Module TransactionStatus.
Record t := {
  transactionId : jsstring;
  status : Status;
  amount : number;
  phoneNumber : jsstring;
  mpesaReceiptNumber : option jsstring;
  transactionDate : option jsstring;
  errorMessage : option jsstring
}.
End TransactionStatus.

Module PaymentRequest.
Record t := {
  amount : number;
  phoneNumber : jsstring;
  accountReference : jsstring;
  transactionDesc : jsstring
}.
End PaymentRequest.

Module PaymentResponse.
Record t := {
  success : bool;
  transactionId : option jsstring;
  checkoutRequestId : option jsstring;
  message : jsstring;
  customerMessage : option jsstring
}.
End PaymentResponse.

Module AccessTokenResponse.
Record t := {
  access_token : option jsstring;
  expires_in : option jsstring
}.
End AccessTokenResponse.

Module QuerySTKResponse.
Record t := {
  ResponseCode : jsstring;
  ResponseDescription : jsstring;
  MerchantRequestID : jsstring;
  CheckoutRequestID : jsstring;
  ResultCode : jsstring;
  ResultDesc : jsstring
}.
End QuerySTKResponse.

(** The body of the status query, an object literal in the service. *)
Module QueryData.
Record t := {
  BusinessShortCode : jsstring;
  Password : jsstring;
  Timestamp : jsstring;
  CheckoutRequestID : jsstring
}.
End QueryData.

(** ** [src/services/mpesa.service.ts]

  The service keeps a token and its expiry, reads the wall clock and talks
  to the provider over HTTP.  A call is a function of the world it starts
  in; it completes by returning or throwing and leaves a world behind.
  Logging is left out: it changes nothing the service reads. *)

Module MpesaService.

(** The private fields [accessToken] and [tokenExpiry]; a [Date] is its
    time value in milliseconds. *)
Record fields := { accessToken : jsstring; tokenExpiry : Z }.

(** The requests the service sends through its axios instance. *)
Inductive request :=
| OAuthGenerate (authorization : jsstring)
| ProcessRequest (authorization : jsstring) (data : STKPushRequest.t)
| Query (authorization : jsstring) (data : QueryData.t).

Record world := {
  this : fields;
  clock : Z;
  sent : list request
}.

(** What the provider does with a request: the time the round trip takes
    and the response data, or the error axios rejects with.  The provider
    sees the requests sent before. *)
Record reply (A : Type) := { latency : N; response : completion A }.

Record provider := {
  oauth_generate : list request -> jsstring -> reply AccessTokenResponse.t;
  processrequest :
    list request -> jsstring -> STKPushRequest.t -> reply STKPushResponse.t;
  query : list request -> jsstring -> QueryData.t -> reply QuerySTKResponse.t
}.

(** [new MpesaService()] at time [date]: the field initialisers
    [accessToken = ""] and [tokenExpiry = new Date()], nothing sent yet. *)
Definition constructor (date : Z) : world :=
  {| this := {| accessToken := []; tokenExpiry := date |};
     clock := date;
     sent := [] |}.

Definition M (A : Type) := world -> completion A * world.

Definition ret {A} (a : A) : M A := fun w => (Returned a, w).

Definition throw {A} (message : jsstring) : M A := fun w => (Thrown message, w).

Definition bind {A B} (c : M A) (k : A -> M B) : M B :=
  fun w =>
    match c w with
    | (Returned a, w') => k a w'
    | (Thrown e, w') => (Thrown e, w')
    end.

(** [try { c } catch (error) { handler error.message }] *)
Definition try_catch {A} (c : M A) (handler : jsstring -> M A) : M A :=
  fun w =>
    match c w with
    | (Returned a, w') => (Returned a, w')
    | (Thrown e, w') => handler e w'
    end.

Declare Scope service_scope.
Delimit Scope service_scope with service.
Notation "x <- c ;; k" := (bind c (fun x => k))
  (at level 61, c at next level, right associativity) : service_scope.
Notation "c ;; k" := (bind c (fun _ => k))
  (at level 61, right associativity) : service_scope.
Local Open Scope service_scope.

(** [new Date()] and [Date.now()] *)
Definition now : M Z := fun w => (Returned (clock w), w).

Definition get_this : M fields := fun w => (Returned (this w), w).

Definition set_accessToken (token : jsstring) : M unit :=
  fun w =>
    (Returned tt,
     {| this := {| accessToken := token; tokenExpiry := tokenExpiry (this w) |};
        clock := clock w; sent := sent w |}).

Definition set_tokenExpiry (expiry : Z) : M unit :=
  fun w =>
    (Returned tt,
     {| this := {| accessToken := accessToken (this w); tokenExpiry := expiry |};
        clock := clock w; sent := sent w |}).

(** An awaited HTTP call: the request is recorded, the clock moves on by
    the round trip, and the call yields the data or rejects. *)
Definition http {A} (rq : request) (r : reply A) : M A :=
  fun w =>
    (response r,
     {| this := this w;
        clock := clock w + Z.of_N (latency r);
        sent := sent w ++ [rq] |}).

Section Service.

Variable config : MpesaConfig.t.
Variable upstream : provider.

(** [Buffer.from(s).toString("base64")] *)
Variable base64 : jsstring -> jsstring.

(** [moment().format("YYYYMMDDHHmmss")] at a time value *)
Variable format_YYYYMMDDHHmmss : Z -> jsstring.

(** [Number(s)] and [String(n)] *)
Variable StringToNumber : jsstring -> number.
Variable NumberToString : number -> jsstring.

Definition get_oauth (authorization : jsstring) : M AccessTokenResponse.t :=
  fun w =>
    http (OAuthGenerate authorization)
         (oauth_generate upstream (sent w) authorization) w.

Definition post_processrequest (authorization : jsstring)
    (data : STKPushRequest.t) : M STKPushResponse.t :=
  fun w =>
    http (ProcessRequest authorization data)
         (processrequest upstream (sent w) authorization data) w.

Definition post_query (authorization : jsstring) (data : QueryData.t)
    : M QuerySTKResponse.t :=
  fun w =>
    http (Query authorization data)
         (query upstream (sent w) authorization data) w.

Definition getAccessToken : M jsstring :=
  try_catch
    (self <- get_this ;;
     date <- now ;;
     if truthy (accessToken self) && (date <? tokenExpiry self)%Z
     then ret (accessToken self)
     else
       let credentials :=
         base64 (MpesaConfig.consumerKey config ++ lit ":"
                 ++ MpesaConfig.consumerSecret config) in
       data <- get_oauth (lit "Basic " ++ credentials) ;;
       match if_truthy (AccessTokenResponse.access_token data) with
       | Some access_token =>
           set_accessToken access_token ;;
           date <- now ;;
           set_tokenExpiry (date + 55 * 60 * 1000) ;;
           self <- get_this ;;
           ret (accessToken self)
       | None => throw (lit "Failed to obtain access token")
       end)
    (fun message => throw (lit "Authentication failed: " ++ message)).

Definition generatePassword : M (jsstring * jsstring) :=
  date <- now ;;
  let timestamp := format_YYYYMMDDHHmmss date in
  let password :=
    base64 (MpesaConfig.businessShortCode config
            ++ MpesaConfig.passkey config ++ timestamp) in
  ret (password, timestamp).

(** [x === "0"] for a field that may be absent *)
Definition is_string (x : option jsstring) (s : jsstring) : bool :=
  match x with Some v => eqb v s | None => false end.

(** The object literal [stkPushData]. *)
Definition stkPushData (password timestamp : jsstring)
    (paymentRequest : PaymentRequest.t) : STKPushRequest.t :=
  {| STKPushRequest.BusinessShortCode := MpesaConfig.businessShortCode config;
     STKPushRequest.Password := password;
     STKPushRequest.Timestamp := timestamp;
     STKPushRequest.TransactionType := STKPushRequest.CustomerPayBillOnline;
     STKPushRequest.Amount := PaymentRequest.amount paymentRequest;
     STKPushRequest.PartyA := PaymentRequest.phoneNumber paymentRequest;
     STKPushRequest.PartyB := MpesaConfig.businessShortCode config;
     STKPushRequest.PhoneNumber := PaymentRequest.phoneNumber paymentRequest;
     STKPushRequest.CallBackURL :=
       MpesaConfig.callbackBaseUrl config ++ lit "/stk-callback";
     STKPushRequest.AccountReference :=
       PaymentRequest.accountReference paymentRequest;
     STKPushRequest.TransactionDesc :=
       PaymentRequest.transactionDesc paymentRequest |}.

Definition initiateSTKPush (paymentRequest : PaymentRequest.t)
    : M PaymentResponse.t :=
  try_catch
    (accessToken <- getAccessToken ;;
     pt <- generatePassword ;;
     let '(password, timestamp) := pt in
     responseData <-
       post_processrequest (lit "Bearer " ++ accessToken)
                           (stkPushData password timestamp paymentRequest) ;;
     if is_string (STKPushResponse.ResponseCode responseData) (lit "0")
     then
       ret {| PaymentResponse.success := true;
              PaymentResponse.transactionId :=
                STKPushResponse.MerchantRequestID responseData;
              PaymentResponse.checkoutRequestId :=
                STKPushResponse.CheckoutRequestID responseData;
              PaymentResponse.message :=
                lit "Payment request sent successfully";
              PaymentResponse.customerMessage :=
                STKPushResponse.CustomerMessage responseData |}
     else
       ret {| PaymentResponse.success := false;
              PaymentResponse.transactionId :=
                Some (or_else (STKPushResponse.MerchantRequestID responseData) []);
              PaymentResponse.checkoutRequestId :=
                Some (or_else (STKPushResponse.CheckoutRequestID responseData) []);
              PaymentResponse.message :=
                or_else (STKPushResponse.ResponseDescription responseData)
                        (lit "Payment request failed");
              PaymentResponse.customerMessage := None |})
    (fun message => throw (lit "Payment initiation failed: " ++ message)).

(** The object literal [queryData]. *)
Definition queryData (password timestamp checkoutRequestId : jsstring)
    : QueryData.t :=
  {| QueryData.BusinessShortCode := MpesaConfig.businessShortCode config;
     QueryData.Password := password;
     QueryData.Timestamp := timestamp;
     QueryData.CheckoutRequestID := checkoutRequestId |}.

Definition querySTKPushStatus (checkoutRequestId : jsstring)
    : M TransactionStatus.t :=
  try_catch
    (accessToken <- getAccessToken ;;
     pt <- generatePassword ;;
     let '(password, timestamp) := pt in
     responseData <-
       post_query (lit "Bearer " ++ accessToken)
                  (queryData password timestamp checkoutRequestId) ;;
     let status := pending in
     let status :=
       if eqb (QuerySTKResponse.ResultCode responseData) (lit "0")
       then success
       else if eqb (QuerySTKResponse.ResultCode responseData) (lit "1032")
       then cancelled
       else if eqb (QuerySTKResponse.ResultCode responseData) (lit "1")
       then failed
       else status in
     ret {| TransactionStatus.transactionId :=
              QuerySTKResponse.MerchantRequestID responseData;
            TransactionStatus.status := status;
            TransactionStatus.amount := num 0;
            TransactionStatus.phoneNumber := [];
            TransactionStatus.mpesaReceiptNumber := None;
            TransactionStatus.transactionDate := None;
            TransactionStatus.errorMessage :=
              match status with
              | success => None
              | _ => Some (QuerySTKResponse.ResultDesc responseData)
              end |})
    (fun message => throw (lit "Status query failed: " ++ message)).

(** [Number(item.Value)] and [String(item.Value)] *)
Definition ToNumber (v : STKPushCallback.value) : number :=
  match v with
  | STKPushCallback.VNumber n => n
  | STKPushCallback.VString s => StringToNumber s
  end.

Definition ToString (v : STKPushCallback.value) : jsstring :=
  match v with
  | STKPushCallback.VString s => s
  | STKPushCallback.VNumber n => NumberToString n
  end.

(** The local variables the metadata loop assigns. *)
Record locals := {
  amount : number;
  phoneNumber : jsstring;
  mpesaReceiptNumber : jsstring;
  transactionDate : jsstring
}.

(** One round of the loop: the [switch] on [item.Name]. *)
Definition assign (l : locals) (item : STKPushCallback.item) : locals :=
  let name := STKPushCallback.Name item in
  let v := STKPushCallback.Value item in
  if eqb name (lit "Amount") then
    {| amount := ToNumber v; phoneNumber := phoneNumber l;
       mpesaReceiptNumber := mpesaReceiptNumber l;
       transactionDate := transactionDate l |}
  else if eqb name (lit "PhoneNumber") then
    {| amount := amount l; phoneNumber := ToString v;
       mpesaReceiptNumber := mpesaReceiptNumber l;
       transactionDate := transactionDate l |}
  else if eqb name (lit "MpesaReceiptNumber") then
    {| amount := amount l; phoneNumber := phoneNumber l;
       mpesaReceiptNumber := ToString v;
       transactionDate := transactionDate l |}
  else if eqb name (lit "TransactionDate") then
    {| amount := amount l; phoneNumber := phoneNumber l;
       mpesaReceiptNumber := mpesaReceiptNumber l;
       transactionDate := ToString v |}
  else l.

(** The function is synchronous and touches neither the token nor the
    network; nothing in its [try] block throws on a typed payload. *)
Definition processSTKCallback (callbackData : STKPushCallback.t)
    : completion TransactionStatus.t :=
  let callback := STKPushCallback.stkCallback (STKPushCallback.Body callbackData) in
  let status := failed in
  let l := {| amount := num 0; phoneNumber := [];
              mpesaReceiptNumber := []; transactionDate := [] |} in
  let '(status, l) :=
    if strict_eq (STKPushCallback.ResultCode callback) (num 0) then
      (success,
       match STKPushCallback.CallbackMetadata callback with
       | Some metadata => fold_left assign (STKPushCallback.Item metadata) l
       | None => l
       end)
    else if strict_eq (STKPushCallback.ResultCode callback) (num 1032) then
      (cancelled, l)
    else (status, l) in
  let is_success := match status with success => true | _ => false end in
  Returned
    {| TransactionStatus.transactionId := STKPushCallback.MerchantRequestID callback;
       TransactionStatus.status := status;
       TransactionStatus.amount := amount l;
       TransactionStatus.phoneNumber := phoneNumber l;
       TransactionStatus.mpesaReceiptNumber :=
         if is_success then Some (mpesaReceiptNumber l) else None;
       TransactionStatus.transactionDate :=
         if is_success then Some (transactionDate l) else None;
       TransactionStatus.errorMessage :=
         if is_success then None
         else Some (STKPushCallback.ResultDesc callback) |}.

End Service.

End MpesaService.

(** ** [src/config/index.ts] *)

Module Config.

(** [process.env] *)
Definition environment := jsstring -> option jsstring.

(** The [mpesa] part of [config]. *)
Record mpesa := {
  consumerKey : jsstring;
  consumerSecret : jsstring;
  businessShortCode : jsstring;
  passkey : jsstring;
  environment_name : jsstring;
  baseUrl : jsstring;
  callbackBaseUrl : jsstring
}.

Definition config_mpesa (process_env : environment) : mpesa :=
  {| consumerKey := or_else (process_env (lit "MPESA_CONSUMER_KEY")) [];
     consumerSecret := or_else (process_env (lit "MPESA_CONSUMER_SECRET")) [];
     businessShortCode := or_else (process_env (lit "MPESA_BUSINESS_SHORT_CODE")) [];
     passkey := or_else (process_env (lit "MPESA_PASSKEY")) [];
     environment_name :=
       or_else (process_env (lit "MPESA_ENVIRONMENT")) (lit "sandbox");
     baseUrl :=
       match process_env (lit "MPESA_ENVIRONMENT") with
       | Some v =>
           if eqb v (lit "production")
           then lit "https://api.safaricom.co.ke"
           else lit "https://sandbox.safaricom.co.ke"
       | None => lit "https://sandbox.safaricom.co.ke"
       end;
     callbackBaseUrl :=
       or_else (process_env (lit "CALLBACK_BASE_URL"))
               (lit "http://localhost:3000/api/v1/callbacks") |}.

Definition requiredVars : list jsstring :=
  [lit "MPESA_CONSUMER_KEY"; lit "MPESA_CONSUMER_SECRET";
   lit "MPESA_BUSINESS_SHORT_CODE"; lit "MPESA_PASSKEY"].

(** [!process.env[varName]] *)
Definition unset (process_env : environment) (varName : jsstring) : bool :=
  match if_truthy (process_env varName) with
  | Some _ => false
  | None => true
  end.

Definition validateConfig (process_env : environment) : completion unit :=
  let missing := filter (unset process_env) requiredVars in
  if Nat.ltb 0 (List.length missing)
  then Thrown (lit "Missing required environment variables: "
               ++ join (lit ", ") missing)
  else Returned tt.

End Config.

(** ** [src/types/api.types.ts] *)

Module ApiResponse.
Record t (T : Type) := {
  success : bool;
  data : option T;
  error : option jsstring;
  message : jsstring;
  timestamp : jsstring
}.
End ApiResponse.

(** ** [src/middleware/error.middleware.ts] *)

Module ErrorMiddleware.

(** An [ApiError]: an [Error] with a status code.  The stack is what the
    platform recorded when the error was made. *)
Record ApiError := {
  message : jsstring;
  statusCode : Z;
  isOperational : bool;
  stack : option jsstring
}.

(** What is thrown and handed to the handlers: an [ApiError], or another
    error with its name. *)
Inductive error :=
| an_ApiError (e : ApiError)
| an_Error (name message : jsstring) (stack : option jsstring).

Definition error_message (e : error) : jsstring :=
  match e with
  | an_ApiError a => message a
  | an_Error _ m _ => m
  end.

Definition error_stack (e : error) : option jsstring :=
  match e with
  | an_ApiError a => stack a
  | an_Error _ _ st => st
  end.

(** What a handler sends: [res.status(statusCode).json(body)]. *)
Record response (B : Type) := { status : Z; json : B }.

(** The body [errorHandler] sends: an [ApiResponse], with the stack as a
    further property in development. *)
Record error_body := {
  api_response : ApiResponse.t unit;
  response_stack : option jsstring
}.

Section Handlers.

(** [process.env.NODE_ENV] and [new Date().toISOString()] *)
Variable NODE_ENV : option jsstring.
Variable timestamp : jsstring.

Definition errorHandler (e : error) : response error_body :=
  let statusCode := 500%Z in
  let message := lit "Internal server error" in
  let '(statusCode, message) :=
    match e with
    | an_ApiError a => (ErrorMiddleware.statusCode a, ErrorMiddleware.message a)
    | an_Error name _ _ =>
        if eqb name (lit "ValidationError") then (400%Z, lit "Validation error")
        else if eqb name (lit "UnauthorizedError") then (401%Z, lit "Unauthorized")
        else if eqb name (lit "JsonWebTokenError") then (401%Z, lit "Invalid token")
        else if eqb name (lit "TokenExpiredError") then (401%Z, lit "Token expired")
        else (statusCode, message)
    end in
  {| status := statusCode;
     json :=
       {| api_response :=
            {| ApiResponse.success := false;
               ApiResponse.data := None;
               ApiResponse.error := None;
               ApiResponse.message := message;
               ApiResponse.timestamp := timestamp |};
          response_stack :=
            match NODE_ENV with
            | Some v => if eqb v (lit "development") then error_stack e else None
            | None => None
            end |} |}.

End Handlers.

(** How an [async] handler settles: it has sent its response, or it
    rejects with what it threw. *)
Inductive settled (A : Type) : Type :=
| Fulfilled (a : A)
| Rejected (e : error).
Arguments Rejected {A} e.

(** [asyncHandler(fn)]: the response of [fn], or what [next] does with
    the error [fn] rejects with. *)
Definition asyncHandler {W A B} (fn : W -> settled A * W) (next : error -> B)
    : W -> (A + B) * W :=
  fun w =>
    match fn w with
    | (Fulfilled a, w') => (inl a, w')
    | (Rejected e, w') => (inr (next e), w')
    end.

End ErrorMiddleware.

(** ** [src/middleware/auth.middleware.ts]: the key of the payment rate
    limiter *)

Module AuthMiddleware.

(** [keyGenerator] of [paymentRateLimiter], on a request with the address
    [ip] whose body has the phone number [phoneNumber], or none. *)
Definition keyGenerator (ip : jsstring) (phoneNumber : option jsstring) : jsstring :=
  let phoneNumber := or_else phoneNumber (lit "unknown") in
  ip ++ lit "-" ++ phoneNumber.

End AuthMiddleware.

(** ** [src/controllers/payment.controller.ts]: the callback endpoint *)

Module PaymentController.

(** What the endpoint answers the provider: the HTTP status and the
    JSON body. *)
Record answer := { http_status : Z; ResultCode : Z; ResultDesc : jsstring }.

Section Controller.

Variable StringToNumber : jsstring -> number.
Variable NumberToString : number -> jsstring.

Definition handleSTKCallback (callbackData : STKPushCallback.t) : answer :=
  match MpesaService.processSTKCallback StringToNumber NumberToString callbackData with
  | Returned transactionStatus =>
      {| http_status := 200; ResultCode := 0; ResultDesc := lit "Accepted" |}
  | Thrown message =>
      {| http_status := 200; ResultCode := 1; ResultDesc := lit "Failed" |}
  end.

End Controller.

(** *** The merchant endpoints

    What [initiatePayment] and [queryPaymentStatus] read of the request is
    an argument; each settles by sending a response or by rejecting with an
    [ApiError]. *)

(** What a property of [req.body] holds once [express.json()] or
    [express.urlencoded()] has parsed the body: [undefined] when the body
    has no such property, or a JSON value. *)
#[warnings="-register-all"] Inductive any :=
| JSUndefined
| JSNull
| JSBoolean (b : bool)
| JSNumber (n : number)
| JSString (s : jsstring)
| JSArray (elements : list any)
| JSObject (properties : list (jsstring * any)).

Section Endpoints.

Variable config : MpesaConfig.t.
Variable upstream : MpesaService.provider.
Variable base64 : jsstring -> jsstring.
Variable format_YYYYMMDDHHmmss : Z -> jsstring.

(** The messages of the [TypeError]s the engine throws: for the
    destructuring of a [req.body] that is [undefined] or [null], and for
    the call [v.replace(...)] on a value [v] that is not a string. *)
Variable destructure_TypeError : jsstring.
Variable replace_TypeError : any -> jsstring.

(** [parseFloat(v)]: the number read from [String(v)], or the message of
    the [TypeError] of a value that has no string form. *)
Variable parseFloat : any -> completion number.

(** [new Date(t).toISOString()] *)
Variable toISOString : Z -> jsstring.

(** The stack the platform records for a new error. *)
Variable captureStackTrace : option jsstring.

(** [new ApiError(message, statusCode)] *)
Definition new_ApiError (message : jsstring) (statusCode : Z)
    : ErrorMiddleware.ApiError :=
  {| ErrorMiddleware.message := message;
     ErrorMiddleware.statusCode := statusCode;
     ErrorMiddleware.isOperational := true;
     ErrorMiddleware.stack := captureStackTrace |}.

(** The properties [initiatePayment] takes from [req.body].  The phone
    number and the amount are used as they come, whatever they are; the
    account reference and the description are only copied into the
    [PaymentRequest], and have the type it declares. *)
Record body := {
  amount : any;
  phoneNumber : any;
  accountReference : jsstring;
  transactionDesc : jsstring
}.

(** The call [formatPhoneNumber(phoneNumber)] on what the body holds: only
    a string has the method [replace]. *)
Definition call_formatPhoneNumber (phoneNumber : any) : completion jsstring :=
  match phoneNumber with
  | JSString s => formatPhoneNumber s
  | _ => Thrown (replace_TypeError phoneNumber)
  end.

Definition endpoint (T : Type) : Type :=
  MpesaService.world ->
  ErrorMiddleware.settled (ErrorMiddleware.response (ApiResponse.t T))
  * MpesaService.world.

(** [req_body] is [req.body], [None] when it is [undefined] or [null]. *)
Definition initiatePayment (req_body : option body) : endpoint PaymentResponse.t :=
  fun w =>
    let catch message w' :=
      (ErrorMiddleware.Rejected
         (ErrorMiddleware.an_ApiError
            (new_ApiError
               (or_else (Some message) (lit "Payment initiation failed")) 500)),
       w') in
    match req_body with
    | None => catch destructure_TypeError w
    | Some req_body =>
        match call_formatPhoneNumber (phoneNumber req_body) with
        | Thrown message => catch message w
        | Returned formattedPhoneNumber =>
            match parseFloat (amount req_body) with
            | Thrown message => catch message w
            | Returned amount =>
                let paymentRequest :=
                  {| PaymentRequest.amount := amount;
                     PaymentRequest.phoneNumber := formattedPhoneNumber;
                     PaymentRequest.accountReference := accountReference req_body;
                     PaymentRequest.transactionDesc := transactionDesc req_body |} in
                match MpesaService.initiateSTKPush config upstream base64
                        format_YYYYMMDDHHmmss paymentRequest w with
                | (Thrown message, w') => catch message w'
                | (Returned result, w') =>
                    let response :=
                      {| ApiResponse.success := PaymentResponse.success result;
                         ApiResponse.data := Some result;
                         ApiResponse.error := None;
                         ApiResponse.message := PaymentResponse.message result;
                         ApiResponse.timestamp :=
                           toISOString (MpesaService.clock w') |} in
                    let statusCode :=
                      if PaymentResponse.success result then 200%Z else 400%Z in
                    (ErrorMiddleware.Fulfilled
                       {| ErrorMiddleware.status := statusCode;
                          ErrorMiddleware.json := response |},
                     w')
                end
            end
        end
    end.

(** [checkoutRequestId] is [req.params.checkoutRequestId]. *)
Definition queryPaymentStatus (checkoutRequestId : option jsstring)
    : endpoint TransactionStatus.t :=
  fun w =>
    let catch message w' :=
      (ErrorMiddleware.Rejected
         (ErrorMiddleware.an_ApiError
            (new_ApiError
               (or_else (Some message) (lit "Failed to query payment status")) 500)),
       w') in
    match if_truthy checkoutRequestId with
    | None =>
        catch (ErrorMiddleware.message
                 (new_ApiError (lit "Checkout request ID is required") 400)) w
    | Some checkoutRequestId =>
        match MpesaService.querySTKPushStatus config upstream base64
                format_YYYYMMDDHHmmss checkoutRequestId w with
        | (Thrown message, w') => catch message w'
        | (Returned status, w') =>
            let response :=
              {| ApiResponse.success := true;
                 ApiResponse.data := Some status;
                 ApiResponse.error := None;
                 ApiResponse.message := lit "Payment status retrieved successfully";
                 ApiResponse.timestamp := toISOString (MpesaService.clock w') |} in
            (ErrorMiddleware.Fulfilled
               {| ErrorMiddleware.status := 200;
                  ErrorMiddleware.json := response |},
             w')
        end
    end.

End Endpoints.

End PaymentController.


(** ** Notions the properties are stated with *)

Import MpesaService.

(** *** Phone numbers *)

(** A string that the cleaning leaves as it is. *)
Definition kept (s : jsstring) : Prop := Forall (fun c => stripped c = false) s.

(** *** Doubles *)

(** The magnitude of a finite double in units of [2^-1074]. *)
Definition magnitude (m : positive) (e : Z) : Z := Zpos m * 2 ^ (e + 1074).

(** A finite double in units of [2^-1074], with its sign. *)
Definition scaled (x : number) : Z :=
  match x with
  | S754_finite s m e => if s then - magnitude m e else magnitude m e
  | _ => 0
  end.

(** *** Result codes

    A provider result code is a number in the callback payload and a
    string of decimal digits in the query response. *)

Definition code_string (c : Z) : jsstring :=
  lit (NilZero.string_of_int (Z.to_int c)).

(** The status the branches of [processSTKCallback] assign to a code. *)
Definition callback_status (code : number) : Status :=
  if strict_eq code (num 0) then success
  else if strict_eq code (num 1032) then cancelled
  else failed.

(** The status the branches of [querySTKPushStatus] assign to a code. *)
Definition poll_status (code : jsstring) : Status :=
  if eqb code (lit "0") then success
  else if eqb code (lit "1032") then cancelled
  else if eqb code (lit "1") then failed
  else pending.

(** *** Callback metadata *)

(** The metadata items of a payload, none when [CallbackMetadata] is
    absent. *)
Definition metadata_items (callbackData : STKPushCallback.t)
    : list STKPushCallback.item :=
  match STKPushCallback.CallbackMetadata
          (STKPushCallback.stkCallback (STKPushCallback.Body callbackData)) with
  | Some metadata => STKPushCallback.Item metadata
  | None => []
  end.

(** The value of the last item of a given name. *)
Definition last_named (name : string) (items : list STKPushCallback.item)
    : option STKPushCallback.value :=
  option_map STKPushCallback.Value
    (find (fun item => eqb (STKPushCallback.Name item) (lit name)) (rev items)).

(** What the loop leaves in a local: the last item of its name, converted,
    or what it held before. *)
Definition extracted {A} (convert : STKPushCallback.value -> A) (name : string)
    (items : list STKPushCallback.item) (before : A) : A :=
  match last_named name items with
  | Some v => convert v
  | None => before
  end.

(** *** Worlds *)

(** In a consistent world a service without a token has an expiry that is
    not in the future. *)
Definition consistent (w : world) : Prop :=
  accessToken (this w) = [] -> (tokenExpiry (this w) <= clock w)%Z.

(** Time passing. *)
Definition later (d : N) (w : world) : world :=
  {| this := this w; clock := clock w + Z.of_N d; sent := sent w |}.

(** The world after an awaited request. *)
Definition answered {A} (rq : request) (r : reply A) (w : world) : world :=
  {| this := this w;
     clock := clock w + Z.of_N (latency r);
     sent := sent w ++ [rq] |}.

Section Worlds.

Variable config : MpesaConfig.t.
Variable upstream : provider.
Variable base64 : jsstring -> jsstring.
Variable format_YYYYMMDDHHmmss : Z -> jsstring.

(** The [Authorization] header of the credential exchange. *)
Definition basic : jsstring :=
  lit "Basic " ++ base64 (MpesaConfig.consumerKey config ++ lit ":"
                          ++ MpesaConfig.consumerSecret config).

(** The worlds a service can be in: it is constructed, time passes, and
    its methods are called. *)
Inductive reachable : world -> Prop :=
| reach_constructor (date : Z) : reachable (constructor date)
| reach_later (d : N) (w : world) : reachable w -> reachable (later d w)
| reach_getAccessToken (w : world) :
    reachable w -> reachable (snd (getAccessToken config upstream base64 w))
| reach_initiateSTKPush (paymentRequest : PaymentRequest.t) (w : world) :
    reachable w -> reachable
      (snd (initiateSTKPush config upstream base64 format_YYYYMMDDHHmmss
              paymentRequest w))
| reach_querySTKPushStatus (checkoutRequestId : jsstring) (w : world) :
    reachable w -> reachable
      (snd (querySTKPushStatus config upstream base64 format_YYYYMMDDHHmmss
              checkoutRequestId w)).

End Worlds.

(** *** Sanitised strings *)

(** A string of the characters [sanitizeString] lets through. *)
Definition safe (s : jsstring) : Prop := Forall (fun c => unsafe c = false) s.

(** A string that neither starts nor ends with whitespace. *)
Definition trimmed (s : jsstring) : Prop := trim s = s.

(** *** Payloads and their metadata *)

(** A payload with other metadata, or none. *)
Definition with_metadata (metadata : option STKPushCallback.metadata)
    (callbackData : STKPushCallback.t) : STKPushCallback.t :=
  let callback := STKPushCallback.stkCallback (STKPushCallback.Body callbackData) in
  {| STKPushCallback.Body :=
       {| STKPushCallback.stkCallback :=
            {| STKPushCallback.MerchantRequestID :=
                 STKPushCallback.MerchantRequestID callback;
               STKPushCallback.CheckoutRequestID :=
                 STKPushCallback.CheckoutRequestID callback;
               STKPushCallback.ResultCode := STKPushCallback.ResultCode callback;
               STKPushCallback.ResultDesc := STKPushCallback.ResultDesc callback;
               STKPushCallback.CallbackMetadata := metadata |} |} |}.

(** The names the metadata loop knows. *)
Definition known_names : list string :=
  ["Amount"; "PhoneNumber"; "MpesaReceiptNumber"; "TransactionDate"]%string.

Definition known (item : STKPushCallback.item) : bool :=
  existsb (fun name => eqb (STKPushCallback.Name item) (lit name)) known_names.

(** *** Requests on the wire *)

(** A bearer header with a token that is not empty. *)
Definition bearer (authorization : jsstring) : Prop :=
  exists token, token <> [] /\ authorization = lit "Bearer " ++ token.

Section Wire.

Variable config : MpesaConfig.t.
Variable base64 : jsstring -> jsstring.

(** The password that goes with a timestamp. *)
Definition password_for (timestamp : jsstring) : jsstring :=
  base64 (MpesaConfig.businessShortCode config ++ MpesaConfig.passkey config
          ++ timestamp).

(** A request as the provider expects it of this merchant. *)
Definition well_formed (rq : request) : Prop :=
  match rq with
  | OAuthGenerate authorization => authorization = basic config base64
  | ProcessRequest authorization data =>
      bearer authorization /\
      STKPushRequest.BusinessShortCode data = MpesaConfig.businessShortCode config /\
      STKPushRequest.PartyB data = MpesaConfig.businessShortCode config /\
      STKPushRequest.Password data = password_for (STKPushRequest.Timestamp data) /\
      STKPushRequest.PartyA data = STKPushRequest.PhoneNumber data /\
      STKPushRequest.TransactionType data = STKPushRequest.CustomerPayBillOnline /\
      STKPushRequest.CallBackURL data =
        MpesaConfig.callbackBaseUrl config ++ lit "/stk-callback"
  | Query authorization data =>
      bearer authorization /\
      QueryData.BusinessShortCode data = MpesaConfig.businessShortCode config /\
      QueryData.Password data = password_for (QueryData.Timestamp data)
  end.

End Wire.

(** *** A provider stub *)

Module Stub.

Definition config : MpesaConfig.t :=
  {| MpesaConfig.consumerKey := lit "key";
     MpesaConfig.consumerSecret := lit "secret";
     MpesaConfig.businessShortCode := lit "174379";
     MpesaConfig.passkey := lit "passkey";
     MpesaConfig.environment := MpesaConfig.sandbox;
     MpesaConfig.callbackBaseUrl := lit "http://localhost:3000/api/v1/callbacks" |}.

(** A provider that always replies with the same data, after 200 ms. *)
Definition provider (token : AccessTokenResponse.t) (push : STKPushResponse.t)
    (status : QuerySTKResponse.t) : MpesaService.provider :=
  {| oauth_generate := fun _ _ => {| latency := 200; response := Returned token |};
     processrequest := fun _ _ _ => {| latency := 200; response := Returned push |};
     query := fun _ _ _ => {| latency := 200; response := Returned status |} |}.

Definition token : AccessTokenResponse.t :=
  {| AccessTokenResponse.access_token := Some (lit "t0k3n");
     AccessTokenResponse.expires_in := Some (lit "3599") |}.

Definition accepted : STKPushResponse.t :=
  {| STKPushResponse.MerchantRequestID := Some (lit "29115-34620561-1");
     STKPushResponse.CheckoutRequestID := Some (lit "ws_CO_191220191020363925");
     STKPushResponse.ResponseCode := Some (lit "0");
     STKPushResponse.ResponseDescription := Some (lit "Success. Request accepted for processing");
     STKPushResponse.CustomerMessage := Some (lit "Success. Request accepted for processing") |}.

(** A rejection with an empty description. *)
Definition rejected : STKPushResponse.t :=
  {| STKPushResponse.MerchantRequestID := Some (lit "29115-34620561-1");
     STKPushResponse.CheckoutRequestID := None;
     STKPushResponse.ResponseCode := Some (lit "1");
     STKPushResponse.ResponseDescription := Some [];
     STKPushResponse.CustomerMessage := None |}.

(** The status of a request under a given result code. *)
Definition status (code : string) : QuerySTKResponse.t :=
  {| QuerySTKResponse.ResponseCode := lit "0";
     QuerySTKResponse.ResponseDescription :=
       lit "The service request has been accepted";
     QuerySTKResponse.MerchantRequestID := lit "29115-34620561-1";
     QuerySTKResponse.CheckoutRequestID := lit "ws_CO_191220191020363925";
     QuerySTKResponse.ResultCode := lit code;
     QuerySTKResponse.ResultDesc := lit "The result of the request" |}.

(** The callback for a request under a given result code, without
    metadata. *)
Definition callback (code : number) : STKPushCallback.t :=
  {| STKPushCallback.Body :=
       {| STKPushCallback.stkCallback :=
            {| STKPushCallback.MerchantRequestID := lit "29115-34620561-1";
               STKPushCallback.CheckoutRequestID := lit "ws_CO_191220191020363925";
               STKPushCallback.ResultCode := code;
               STKPushCallback.ResultDesc := lit "The result of the request";
               STKPushCallback.CallbackMetadata := None |} |} |}.

Definition paymentRequest : PaymentRequest.t :=
  {| PaymentRequest.amount := num 100;
     PaymentRequest.phoneNumber := lit "254712345678";
     PaymentRequest.accountReference := lit "ORDER123";
     PaymentRequest.transactionDesc := lit "Payment" |}.

(** Stand-ins for the platform's encoders and converters. *)
Definition base64 (s : jsstring) : jsstring := s.
Definition format_YYYYMMDDHHmmss (date : Z) : jsstring := lit "20240101120000".
Definition StringToNumber (s : jsstring) : number := NaN.
Definition NumberToString (n : number) : jsstring := [].

(** Metadata with two amounts and an item of another name. *)
Definition item (name : string) (v : Z) : STKPushCallback.item :=
  {| STKPushCallback.Name := lit name;
     STKPushCallback.Value := STKPushCallback.VNumber (num v) |}.

Definition items : list STKPushCallback.item :=
  [item "Amount" 1; item "Balance" 7; item "Amount" 100].

(** [parseFloat] on a number; the runs have no other amount. *)
Definition parseFloat (v : PaymentController.any) : completion number :=
  match v with
  | PaymentController.JSNumber n => Returned n
  | _ => Returned NaN
  end.

Definition toISOString (date : Z) : jsstring := lit "2024-01-01T12:00:00.000Z".

(** The messages of V8. *)
Definition destructure_TypeError : jsstring :=
  lit "Cannot destructure property 'amount' of 'req.body' as it is undefined.".

Definition replace_TypeError (v : PaymentController.any) : jsstring :=
  match v with
  | PaymentController.JSUndefined =>
      lit "Cannot read properties of undefined (reading 'replace')"
  | PaymentController.JSNull =>
      lit "Cannot read properties of null (reading 'replace')"
  | _ => lit "phoneNumber.replace is not a function"
  end.

Definition body (phoneNumber : PaymentController.any) : PaymentController.body :=
  {| PaymentController.amount := PaymentController.JSNumber (num 100);
     PaymentController.phoneNumber := phoneNumber;
     PaymentController.accountReference := lit "ORDER123";
     PaymentController.transactionDesc := lit "Payment" |}.

End Stub.


(** * Properties *)

(** The operations of the float specification, as those of [Z]. *)
Ltac Z_ops :=
  change IntDef.Z.add with Z.add in *;
  change IntDef.Z.sub with Z.sub in *;
  change IntDef.Z.mul with Z.mul in *;
  change IntDef.Z.opp with Z.opp in *;
  change IntDef.Z.max with Z.max in *;
  change IntDef.Z.min with Z.min in *;
  change IntDef.Z.compare with Z.compare in *;
  change IntDef.Z.leb with Z.leb in *;
  change IntDef.Z.eqb with Z.eqb in *.


(** ** Strings *)

Lemma eqb_eq (a b : jsstring) : eqb a b = true <-> a = b.
Proof.
  revert b; induction a as [|x a IH]; intros [|y b]; simpl; split;
    try congruence; try reflexivity.
  - intros H. apply andb_true_iff in H as [Hx Hab].
    apply N.eqb_eq in Hx. apply IH in Hab. congruence.
  - intros H. injection H as -> ->.
    rewrite N.eqb_refl. simpl. now apply IH.
Qed.

Lemma eqb_refl (a : jsstring) : eqb a a = true.
Proof. now apply eqb_eq. Qed.

Lemma startsWith_app (p r : jsstring) : startsWith (p ++ r) p = true.
Proof.
  induction p as [|c p IH]; simpl.
  - reflexivity.
  - now rewrite N.eqb_refl.
Qed.

Lemma startsWith_split (s p : jsstring) :
  startsWith s p = true -> s = p ++ substring s (List.length p).
Proof.
  revert s; induction p as [|c p IH]; intros s H.
  - reflexivity.
  - destruct s as [|d s]; simpl in H; [discriminate|].
    apply andb_true_iff in H as [Hc Hs]. apply N.eqb_eq in Hc. subst d.
    simpl. f_equal. now apply IH.
Qed.

(** Two prefixes that differ in their first code unit exclude each other. *)
Lemma startsWith_head (s p q : jsstring) (c d : code_unit) :
  c <> d -> startsWith s (c :: p) = true -> startsWith s (d :: q) = false.
Proof.
  intros Hcd H. destruct s as [|x s]; simpl in *; [discriminate|].
  apply andb_true_iff in H as [Hx _]. apply N.eqb_eq in Hx. subst x.
  apply N.eqb_neq in Hcd. now rewrite Hcd.
Qed.

(** The decimal string of a code determines the code. *)
Lemma lit_injective (s t : string) : lit s = lit t -> s = t.
Proof.
  unfold lit. revert t. induction s as [|a s IH]; intros [|b t]; simpl;
    try congruence.
  intros H. injection H as Hab Hst. f_equal.
  - rewrite <- (ascii_N_embedding a), <- (ascii_N_embedding b). now f_equal.
  - now apply IH.
Qed.

Lemma code_string_injective (c k : Z) : code_string c = code_string k -> c = k.
Proof.
  unfold code_string. intros H. apply lit_injective in H.
  assert (P : forall z, NilZero.int_of_string (NilZero.string_of_int (Z.to_int z))
                        = Some (Z.to_int z)).
  { intros z. apply NilZero.isi; destruct z; simpl; try discriminate;
      intros E; injection E as E; now apply Unsigned.to_uint_nonnil in E. }
  pose proof (P c) as Pc. rewrite H, P in Pc. injection Pc as Pc.
  rewrite <- (DecimalZ.of_to c), <- (DecimalZ.of_to k). now f_equal.
Qed.

Lemma code_string_eqb (c k : Z) :
  eqb (code_string c) (code_string k) = (c =? k)%Z.
Proof.
  destruct (Z.eqb_spec c k) as [E|E].
  - subst. apply eqb_refl.
  - destruct (eqb (code_string c) (code_string k)) eqn:B; [|reflexivity].
    apply eqb_eq, code_string_injective in B. contradiction.
Qed.

(** ** The phone number normaliser *)

Lemma clean_kept (s : jsstring) : kept (clean s).
Proof.
  unfold kept, clean. apply Forall_forall. intros c Hc.
  apply filter_In in Hc as [_ Hc]. now apply negb_true_iff in Hc.
Qed.

Lemma kept_clean (s : jsstring) : kept s -> clean s = s.
Proof.
  unfold kept, clean. induction 1 as [|c s Hc _ IH]; simpl.
  - reflexivity.
  - rewrite Hc. simpl. now rewrite IH.
Qed.

Lemma clean_idempotent (s : jsstring) : clean (clean s) = clean s.
Proof. apply kept_clean, clean_kept. Qed.

Lemma kept_skipn (n : nat) (s : jsstring) : kept s -> kept (substring s n).
Proof.
  unfold kept, substring. intros H. apply Forall_forall. intros c Hc.
  rewrite Forall_forall in H. apply H.
  rewrite <- (firstn_skipn n s). apply in_or_app. now right.
Qed.

Lemma digit_kept (c : code_unit) : is_digit c = true -> stripped c = false.
Proof.
  unfold is_digit. intros H. apply andb_true_iff in H as [Hlo Hhi].
  apply N.leb_le in Hlo. apply N.leb_le in Hhi.
  unfold stripped, is_whitespace. simpl.
  repeat match goal with
         | |- context [N.eqb c ?k] =>
             let E := fresh in destruct (N.eqb_spec c k) as [E|E]; [lia|clear E]
         end.
  destruct (N.leb_spec 8192 c); [lia|]. reflexivity.
Qed.

Lemma digits_kept (ds : jsstring) : forallb is_digit ds = true -> kept ds.
Proof.
  intros H. apply Forall_forall. intros c Hc.
  rewrite forallb_forall in H. now apply digit_kept, H.
Qed.

Lemma subscriber_kept (t : jsstring) : subscriber t = true -> kept t.
Proof.
  destruct t as [|c ds]; simpl; [discriminate|]. intros H.
  apply andb_true_iff in H as [H Hds]. apply andb_true_iff in H as [Hc _].
  constructor; [|now apply digits_kept].
  unfold is_1_or_7 in Hc. apply orb_true_iff in Hc as [Hc|Hc];
    apply N.eqb_eq in Hc; subst c; reflexivity.
Qed.

Lemma lit_254_kept : kept (lit "254").
Proof. repeat constructor. Qed.

Lemma kept_app (a b : jsstring) : kept a -> kept b -> kept (a ++ b).
Proof. intros Ha Hb. apply Forall_app. now split. Qed.

(** The outcome of [formatPhoneNumber] in terms of the cleaned input. *)
Lemma formatPhoneNumber_cases (s : jsstring) :
  let c := clean s in
  (startsWith c (lit "07") || startsWith c (lit "01") = true /\
   formatPhoneNumber s = Returned (lit "254" ++ substring c 1)) \/
  (startsWith c (lit "07") || startsWith c (lit "01") = false /\
   startsWith c (lit "254") = true /\ formatPhoneNumber s = Returned c) \/
  (startsWith c (lit "07") || startsWith c (lit "01") = false /\
   startsWith c (lit "254") = false /\
   formatPhoneNumber s = Thrown (lit "Invalid phone number format")).
Proof.
  intros c. unfold formatPhoneNumber. fold c.
  destruct (startsWith c (lit "07") || startsWith c (lit "01")) eqn:E.
  - left. split; [reflexivity|].
    now rewrite (startsWith_app (lit "254") (substring c 1)).
  - right. destruct (startsWith c (lit "254")) eqn:E'; simpl.
    + left. auto.
    + right. auto.
Qed.

Lemma international_not_local (c : jsstring) :
  startsWith c (lit "254") = true ->
  startsWith c (lit "07") || startsWith c (lit "01") = false.
Proof.
  intros H. change (lit "254") with (50 :: lit "54")%N in H.
  apply orb_false_iff. split.
  - change (lit "07") with (48 :: lit "7")%N.
    eapply startsWith_head; [|exact H]. discriminate.
  - change (lit "01") with (48 :: lit "1")%N.
    eapply startsWith_head; [|exact H]. discriminate.
Qed.

Lemma formatPhoneNumber_international (c : jsstring) :
  kept c -> startsWith c (lit "254") = true -> formatPhoneNumber c = Returned c.
Proof.
  intros Hk H. unfold formatPhoneNumber. rewrite (kept_clean Hk).
  rewrite (international_not_local _ H). now rewrite H.
Qed.

Lemma regex_starts (c : jsstring) :
  kenyanPhoneRegex c = true ->
  startsWith c (lit "254") = true \/
  startsWith c (lit "07") || startsWith c (lit "01") = true.
Proof.
  unfold kenyanPhoneRegex.
  destruct (startsWith c (lit "254")) eqn:E254; [now left|].
  destruct (startsWith c (lit "0")) eqn:E0; [|discriminate].
  intros H. right.
  rewrite (startsWith_split _ _ E0) in *. simpl List.length in *.
  destruct (substring c 1) as [|d ds]; [discriminate|].
  simpl in H. apply andb_true_iff in H as [H _].
  apply andb_true_iff in H as [H _]. unfold is_1_or_7 in H.
  apply orb_true_iff in H as [H|H]; apply N.eqb_eq in H; subst d;
    reflexivity.
Qed.

(** C6, as the code has it.  [formatPhoneNumber] throws, always with the
    message "Invalid phone number format", exactly when the input stripped
    of whitespace, dashes and plus signs starts with none of "07", "01" and
    "254".  So it succeeds on every input that matches the pattern
    [^(254|0)[17][0-9]{8}$] after stripping, and
    [formatPhoneNumber("123456789")] throws. *)
Theorem formatPhoneNumber_throws_iff (s : jsstring) :
  (formatPhoneNumber s = Thrown (lit "Invalid phone number format") <->
   startsWith (clean s) (lit "07") = false /\
   startsWith (clean s) (lit "01") = false /\
   startsWith (clean s) (lit "254") = false) /\
  (forall message, formatPhoneNumber s = Thrown message ->
                   message = lit "Invalid phone number format") /\
  (validatePhoneNumber s = true -> exists r, formatPhoneNumber s = Returned r) /\
  formatPhoneNumber (lit "123456789") = Thrown (lit "Invalid phone number format").
Proof.
  pose proof (formatPhoneNumber_cases s) as H. cbv zeta in H.
  split; [split|split; [|split]].
  - intros T. destruct H as [[_ E]|[[_ [_ E]]|[E1 [E2 _]]]];
      try congruence. apply orb_false_iff in E1. tauto.
  - intros [E1 [E2 E3]].
    destruct H as [[E _]|[[_ [E _]]|[_ [_ E]]]]; try congruence.
    rewrite E1, E2 in E. discriminate.
  - intros message T.
    destruct H as [[_ E]|[[_ [_ E]]|[_ [_ E]]]]; congruence.
  - unfold validatePhoneNumber. intros V.
    destruct H as [[_ E]|[[_ [_ E]]|[E1 [E2 _]]]]; eauto.
    apply regex_starts in V. destruct V; congruence.
  - reflexivity.
Qed.

(** C6, as stated, fails: "0712" matches neither pattern, and
    [formatPhoneNumber] returns "254712" for it. *)
Lemma formatPhoneNumber_accepts_unmatched :
  validatePhoneNumber (lit "0712") = false /\
  formatPhoneNumber (lit "0712") = Returned (lit "254712").
Proof. split; reflexivity. Qed.

(** C7.  For every subscriber number [t] (a 1 or a 7 followed by eight
    digits), [formatPhoneNumber] turns the local form "0" + [t] into
    "254" + [t], and returns the international form "254" + [t] as it is. *)
Theorem formatPhoneNumber_valid (t : jsstring) :
  subscriber t = true ->
  validatePhoneNumber (lit "0" ++ t) = true /\
  formatPhoneNumber (lit "0" ++ t) = Returned (lit "254" ++ t) /\
  validatePhoneNumber (lit "254" ++ t) = true /\
  formatPhoneNumber (lit "254" ++ t) = Returned (lit "254" ++ t).
Proof.
  intros Ht. pose proof (subscriber_kept _ Ht) as Hk.
  assert (K0 : kept (lit "0" ++ t)) by (constructor; [reflexivity|exact Hk]).
  assert (K254 : kept (lit "254" ++ t))
    by exact (kept_app lit_254_kept Hk).
  assert (L : startsWith (lit "0" ++ t) (lit "07")
              || startsWith (lit "0" ++ t) (lit "01") = true).
  { destruct t as [|d ds]; [discriminate|]. simpl in Ht.
    apply andb_true_iff in Ht as [Ht _]. apply andb_true_iff in Ht as [Ht _].
    unfold is_1_or_7 in Ht. apply orb_true_iff in Ht as [Ht|Ht];
      apply N.eqb_eq in Ht; subst d; reflexivity. }
  split; [|split; [|split]].
  - unfold validatePhoneNumber. rewrite (kept_clean K0). exact Ht.
  - unfold formatPhoneNumber. rewrite (kept_clean K0), L.
    now rewrite (startsWith_app (lit "254") (substring (lit "0" ++ t) 1)).
  - unfold validatePhoneNumber, kenyanPhoneRegex. rewrite (kept_clean K254).
    now rewrite (startsWith_app (lit "254") t).
  - apply formatPhoneNumber_international; [exact K254|].
    apply startsWith_app.
Qed.

Lemma formatPhoneNumber_valid_witness :
  subscriber (lit "712345678") = true /\
  formatPhoneNumber (lit "0712345678") = Returned (lit "254712345678") /\
  formatPhoneNumber (lit "254712345678") = Returned (lit "254712345678").
Proof.
  split; [reflexivity|].
  pose proof (@formatPhoneNumber_valid (lit "712345678") eq_refl) as H.
  split; apply H.
Defined.

(** C10.  Whatever [formatPhoneNumber] returns starts with "254", and
    [formatPhoneNumber] returns it unchanged when applied to it. *)
Theorem formatPhoneNumber_idempotent (s r : jsstring) :
  formatPhoneNumber s = Returned r ->
  startsWith r (lit "254") = true /\ formatPhoneNumber r = Returned r.
Proof.
  intros H. pose proof (formatPhoneNumber_cases s) as C. cbv zeta in C.
  pose proof (clean_kept s) as K.
  destruct C as [[_ E]|[[_ [E254 E]]|[_ [_ E]]]]; rewrite E in H;
    [|  |discriminate].
  - assert (R : r = lit "254" ++ substring (clean s) 1) by congruence.
    subst r. clear H.
    assert (S : startsWith (lit "254" ++ substring (clean s) 1) (lit "254") = true)
      by apply startsWith_app.
    split; [exact S|]. apply formatPhoneNumber_international; [|exact S].
    apply (kept_app lit_254_kept). now apply kept_skipn.
  - assert (R : r = clean s) by congruence. subst r.
    split; [exact E254|]. now apply formatPhoneNumber_international.
Qed.

Lemma formatPhoneNumber_idempotent_witness :
  formatPhoneNumber (lit "+254 712-345-678") = Returned (lit "254712345678") /\
  formatPhoneNumber (lit "254712345678") = Returned (lit "254712345678").
Proof.
  split; [reflexivity|].
  apply (@formatPhoneNumber_idempotent (lit "+254 712-345-678")). reflexivity.
Defined.

(** ** Numbers: comparison of doubles is comparison of their values *)

Section Doubles.

Local Open Scope Z_scope.

Lemma digits2_pos_bounds (m : positive) :
  2 ^ (Zpos (digits2_pos m) - 1) <= Zpos m < 2 ^ Zpos (digits2_pos m).
Proof.
  induction m as [m IH|m IH|]; simpl digits2_pos.
  - rewrite Pos2Z.inj_succ.
    replace (Z.succ (Zpos (digits2_pos m)) - 1) with (Z.succ (Zpos (digits2_pos m) - 1)) by lia.
    rewrite !Z.pow_succ_r by lia. lia.
  - rewrite Pos2Z.inj_succ.
    replace (Z.succ (Zpos (digits2_pos m)) - 1) with (Z.succ (Zpos (digits2_pos m) - 1)) by lia.
    rewrite !Z.pow_succ_r by lia. lia.
  - simpl. lia.
Qed.

(** What validity says of a finite double [m * 2^e]. *)
Lemma bounded_inv (m : positive) (e : Z) :
  bounded prec emax m e = true ->
  -1074 <= e <= 971 /\ Zpos m < 2 ^ 53 /\ (-1074 < e -> 2 ^ 52 <= Zpos m).
Proof.
  unfold bounded, canonical_mantissa, fexp, emin, prec, emax.
  intros H. apply andb_true_iff in H as [Hc He].
  apply Z.eqb_eq in Hc. apply Z.leb_le in He.
  Z_ops.
  assert (D : Zpos (digits2_pos m) <= 53) by lia.
  assert (D' : -1074 < e -> Zpos (digits2_pos m) = 53) by lia.
  assert (E : -1074 <= e <= 971) by lia.
  pose proof (digits2_pos_bounds m) as [Hlo Hhi].
  split; [exact E|]. split.
  - eapply Z.lt_le_trans; [exact Hhi|].
    apply Z.pow_le_mono_r; [reflexivity|exact D].
  - intros He'. rewrite (D' He') in Hlo. exact Hlo.
Qed.

Lemma magnitude_pos (m : positive) (e : Z) :
  bounded prec emax m e = true -> 0 < magnitude m e.
Proof.
  intros B. apply bounded_inv in B as [E _]. unfold magnitude.
  apply Z.mul_pos_pos; [reflexivity|]. apply Z.pow_pos_nonneg; lia.
Qed.

Lemma magnitude_lt (m1 m2 : positive) (e1 e2 : Z) :
  bounded prec emax m1 e1 = true -> bounded prec emax m2 e2 = true ->
  e1 < e2 -> magnitude m1 e1 < magnitude m2 e2.
Proof.
  intros B1 B2 He.
  apply bounded_inv in B1 as [E1 [M1 _]].
  apply bounded_inv in B2 as [E2 [_ M2]].
  specialize (M2 ltac:(lia)). unfold magnitude.
  assert (P1 : 0 < 2 ^ (e1 + 1074)) by (apply Z.pow_pos_nonneg; lia).
  assert (P2 : 0 < 2 ^ (e2 + 1074)) by (apply Z.pow_pos_nonneg; lia).
  apply Z.lt_le_trans with (2 ^ 53 * 2 ^ (e1 + 1074)).
  - apply Z.mul_lt_mono_pos_r; assumption.
  - apply Z.le_trans with (2 ^ 52 * 2 ^ (e2 + 1074)).
    + rewrite <- !Z.pow_add_r by lia. apply Z.pow_le_mono_r; lia.
    + apply Z.mul_le_mono_pos_r; assumption.
Qed.

Lemma magnitude_compare (m1 m2 : positive) (e1 e2 : Z) :
  bounded prec emax m1 e1 = true -> bounded prec emax m2 e2 = true ->
  match e1 ?= e2 with
  | Lt => Lt
  | Gt => Gt
  | Eq => Pos.compare_cont Eq m1 m2
  end = (magnitude m1 e1 ?= magnitude m2 e2).
Proof.
  intros B1 B2. destruct (Z.compare_spec e1 e2) as [E|E|E].
  - subst e2. unfold magnitude.
    pose proof (bounded_inv _ _ B1) as [E1 _].
    rewrite <- Zmult_compare_compat_r
      by (apply Z.lt_gt, Z.pow_pos_nonneg; lia).
    reflexivity.
  - symmetry. apply Z.compare_lt_iff. now apply magnitude_lt.
  - symmetry. apply Z.compare_gt_iff. now apply magnitude_lt.
Qed.

Lemma SFcompare_scaled (x y : number) :
  is_double x -> is_double y -> isFinite x = true -> isFinite y = true ->
  SFcompare x y = Some (scaled x ?= scaled y).
Proof.
  unfold is_double.
  destruct x as [sx|sx| |sx mx ex], y as [sy|sy| |sy my ey];
    unfold SFcompare, scaled, valid_binary, isFinite;
    intros Vx Vy Fx Fy; try discriminate.
  - reflexivity.
  - pose proof (magnitude_pos _ _ Vy). destruct sy; f_equal; symmetry.
    + apply Z.compare_gt_iff. lia.
    + apply Z.compare_lt_iff. lia.
  - pose proof (magnitude_pos _ _ Vx). destruct sx; f_equal; symmetry.
    + apply Z.compare_lt_iff. lia.
    + apply Z.compare_gt_iff. lia.
  - pose proof (magnitude_pos _ _ Vx). pose proof (magnitude_pos _ _ Vy).
    pose proof (magnitude_compare _ _ _ _ Vx Vy) as C.
    Z_ops.
    destruct sx, sy; f_equal.
    + rewrite Z.compare_opp, (Z.compare_antisym (magnitude mx ex)), <- C.
      destruct (ex ?= ey); reflexivity.
    + symmetry. apply Z.compare_lt_iff. lia.
    + symmetry. apply Z.compare_gt_iff. lia.
    + exact C.
Qed.

Lemma Qpower_2_scaled (e : Z) :
  -1074 <= e -> (2 ^ e == inject_Z (2 ^ (e + 1074)) / inject_Z (2 ^ 1074))%Q.
Proof.
  intros He.
  assert (U : (2 ^ (-1074) == / inject_Z (2 ^ 1074))%Q)
    by (vm_compute; reflexivity).
  replace e with ((e + 1074) + -1074) at 1 by lia.
  rewrite Qpower_plus by discriminate.
  rewrite U, (Zpower_Qpower 2 (e + 1074)) by lia.
  reflexivity.
Qed.

(** The value of a finite double is its scaled integer over [2^1074]. *)
Lemma value_scaled (x : number) :
  is_double x -> isFinite x = true ->
  exists q, value x = Some q /\
            (q == inject_Z (scaled x) / inject_Z (2 ^ 1074))%Q.
Proof.
  unfold is_double. destruct x as [s|s| |s m e]; simpl; intros V F;
    try discriminate.
  - exists 0%Q. split; reflexivity.
  - eexists. split; [reflexivity|].
    apply bounded_inv in V as [E _].
    rewrite (Qpower_2_scaled (proj1 E)). unfold Qdiv.
    rewrite Qmult_assoc. apply Qmult_comp; [|reflexivity].
    rewrite <- inject_Z_mult. destruct s; unfold magnitude.
    + rewrite <- Z.mul_opp_l. reflexivity.
    + reflexivity.
Qed.

(** Scaling by [2^1074] keeps the order. *)
Lemma Qle_scaled (a b : Z) :
  (inject_Z a / inject_Z (2 ^ 1074) <= inject_Z b / inject_Z (2 ^ 1074))%Q
  <-> a <= b.
Proof.
  assert (P : (0 < inject_Z (2 ^ 1074))%Q).
  { change 0%Q with (inject_Z 0). rewrite <- Zlt_Qlt. reflexivity. }
  unfold Qdiv. rewrite Qmult_le_r by (now apply Qinv_lt_0_compat).
  rewrite <- Zle_Qle. reflexivity.
Qed.

(** [x <= y] on finite doubles is the order of their values. *)
Lemma le_value (x y : number) (p q : Q) :
  is_double x -> is_double y -> value x = Some p -> value y = Some q ->
  le x y = true <-> (p <= q)%Q.
Proof.
  intros Vx Vy Hp Hq.
  assert (Fx : isFinite x = true) by (destruct x; simpl in *; congruence).
  assert (Fy : isFinite y = true) by (destruct y; simpl in *; congruence).
  destruct (value_scaled Vx Fx) as [p' [Hp' Ep]].
  destruct (value_scaled Vy Fy) as [q' [Hq' Eq]].
  assert (p' = p) by congruence. assert (q' = q) by congruence. subst p' q'.
  rewrite Ep, Eq, Qle_scaled.
  unfold le, SFleb. rewrite (SFcompare_scaled Vx Vy Fx Fy).
  unfold Z.le. destruct (scaled x ?= scaled y); split; congruence.
Qed.

(** *** Integers as doubles *)

Lemma digits2_pos_iter (p k : positive) :
  digits2_pos (Pos.iter xO p k) = (digits2_pos p + k)%positive.
Proof.
  induction k as [|k IH] using Pos.peano_ind.
  - simpl. now rewrite Pos.add_1_r.
  - rewrite Pos.iter_succ. simpl. rewrite IH. lia.
Qed.

Lemma Zpos_iter (p k : positive) :
  Zpos (Pos.iter xO p k) = Zpos p * 2 ^ Zpos k.
Proof.
  induction k as [|k IH] using Pos.peano_ind.
  - simpl. lia.
  - rewrite Pos.iter_succ, Pos2Z.inj_xO, IH, Pos2Z.inj_succ, Z.pow_succ_r by lia.
    lia.
Qed.

Lemma binary_round_aux_exact (s : bool) (m : positive) (e : Z) :
  Zpos (digits2_pos m) = 53 -> -1074 <= e <= 971 ->
  binary_round_aux prec emax s (Zpos m) e loc_Exact = S754_finite s m e.
Proof.
  intros D E.
  assert (F : shr_fexp prec emax (Zpos m) e loc_Exact =
              ({| shr_m := Zpos m; shr_r := false; shr_s := false |}, e)).
  { unfold shr_fexp, fexp, emin, prec, emax. simpl Zdigits2. Z_ops.
    rewrite D. replace (Z.max (53 + e - 53) (3 - 1024 - 53) - e) with 0 by lia.
    reflexivity. }
  unfold binary_round_aux. rewrite F. simpl. rewrite F. simpl.
  Z_ops.
  replace (e <=? 971) with true by (symmetry; apply Z.leb_le; lia).
  reflexivity.
Qed.

Lemma bounded_normal (m : positive) (e : Z) :
  Zpos (digits2_pos m) = 53 -> -1074 <= e <= 971 ->
  bounded prec emax m e = true.
Proof.
  intros D E. unfold bounded, canonical_mantissa, fexp, emin, prec, emax.
  Z_ops. rewrite D. apply andb_true_iff. split.
  - apply Z.eqb_eq. lia.
  - apply Z.leb_le. lia.
Qed.

Lemma binary_round_exact (s : bool) (p : positive) :
  Zpos p < 2 ^ 53 ->
  exists m e, binary_round prec emax s p 0 = S754_finite s m e /\
              bounded prec emax m e = true /\
              magnitude m e = Zpos p * 2 ^ 1074.
Proof.
  intros B. pose proof (digits2_pos_bounds p) as [Lo _].
  assert (D : Zpos (digits2_pos p) <= 53).
  { destruct (Z.le_gt_cases (Zpos (digits2_pos p)) 53) as [H|H]; [exact H|].
    exfalso. assert (2 ^ 53 <= 2 ^ (Zpos (digits2_pos p) - 1))
      by (apply Z.pow_le_mono_r; lia). lia. }
  clear B Lo.
  unfold binary_round, shl_align, fexp, emin, prec, emax. Z_ops.
  replace (Z.max (Zpos (digits2_pos p) + 0 - 53) (3 - 1024 - 53))
    with (Zpos (digits2_pos p) - 53) by lia.
  destruct (Zpos (digits2_pos p) - 53 - 0) as [|k|k] eqn:K; [|lia|].
  - exists p, 0. split; [|split].
    + apply binary_round_aux_exact; lia.
    + apply bounded_normal; lia.
    + reflexivity.
  - exists (Pos.iter xO p k), (Zpos (digits2_pos p) - 53).
    assert (D' : Zpos (digits2_pos (Pos.iter xO p k)) = 53)
      by (rewrite digits2_pos_iter; lia).
    split; [|split].
    + apply binary_round_aux_exact; [exact D'|lia].
    + apply bounded_normal; [exact D'|lia].
    + unfold magnitude. rewrite Zpos_iter, <- Z.mul_assoc, <- Z.pow_add_r by lia.
      f_equal. f_equal. lia.
Qed.

(** An integer below [2^53] in absolute value is a double, exactly. *)
Lemma num_exact (c : Z) :
  Z.abs c < 2 ^ 53 ->
  is_double (num c) /\ isFinite (num c) = true /\ scaled (num c) = c * 2 ^ 1074.
Proof.
  intros B. unfold num, binary_normalize, is_double.
  destruct c as [|p|p].
  - repeat split.
  - destruct (@binary_round_exact false p B) as [m [e [R [V M]]]].
    rewrite R. repeat split; assumption.
  - destruct (@binary_round_exact true p B) as [m [e [R [V M]]]].
    rewrite R. repeat split; try assumption.
    unfold scaled. rewrite M. lia.
Qed.

Lemma strict_eq_num (c k : Z) :
  Z.abs c < 2 ^ 53 -> Z.abs k < 2 ^ 53 ->
  strict_eq (num c) (num k) = (c =? k).
Proof.
  intros Bc Bk.
  destruct (@num_exact c Bc) as [Vc [Fc Sc]].
  destruct (@num_exact k Bk) as [Vk [Fk Sk]].
  unfold strict_eq, SFeqb. rewrite (SFcompare_scaled Vc Vk Fc Fk), Sc, Sk.
  rewrite <- Zmult_compare_compat_r by reflexivity.
  destruct (Z.compare_spec c k), (Z.eqb_spec c k); try reflexivity; lia.
Qed.

Lemma num_value (c : Z) :
  Z.abs c < 2 ^ 53 -> exists q, value (num c) = Some q /\ (q == inject_Z c)%Q.
Proof.
  intros B. destruct (@num_exact c B) as [V [F S]].
  destruct (value_scaled V F) as [q [Hq E]]. exists q. split; [exact Hq|].
  rewrite E, S, inject_Z_mult. field.
  intros H. apply (Qeq_bool_neq (inject_Z (2 ^ 1074)) 0); [reflexivity|exact H].
Qed.

(** [x === 0] holds of the two zeros, and [x === 1032] of 1032 alone. *)
Lemma strict_eq_0 (x : number) :
  strict_eq x (num 0) = true <-> x = S754_zero false \/ x = S754_zero true.
Proof.
  destruct x as [[|]|[|]| |[|] m e]; simpl; split; intros H;
    try discriminate; try reflexivity; try tauto;
    destruct H as [H|H]; discriminate.
Qed.

Lemma strict_eq_finite (x : number) (m : positive) (e : Z) :
  strict_eq x (S754_finite false m e) = true <-> x = S754_finite false m e.
Proof.
  split.
  - destruct x as [s|s| |s m' e']; unfold strict_eq, SFeqb; simpl;
      try (destruct s; discriminate); try discriminate.
    destruct s; [discriminate|].
    change (IntDef.Z.compare e' e) with (e' ?= e).
    destruct (Z.compare_spec e' e) as [E|E|E]; try discriminate.
    change (PosDef.Pos.compare_cont Eq m' m) with (m' ?= m)%positive.
    destruct (Pos.compare_spec m' m) as [M|M|M]; try discriminate.
    now subst.
  - intros ->. unfold strict_eq, SFeqb. simpl.
    change (IntDef.Z.compare e e) with (e ?= e). rewrite Z.compare_refl.
    change (PosDef.Pos.compare_cont Eq m m) with (m ?= m)%positive.
    now rewrite Pos.compare_refl.
Qed.

Lemma strict_eq_1032 (x : number) :
  strict_eq x (num 1032) = true <-> x = num 1032.
Proof. apply strict_eq_finite. Qed.

End Doubles.

(** ** The amount bound *)

Lemma num_1_value : exists q, value (num 1) = Some q /\ (q == 1)%Q.
Proof. eexists. split; [reflexivity|]. vm_compute. reflexivity. Qed.

Lemma num_70000_value : exists q, value (num 70000) = Some q /\ (q == 70000)%Q.
Proof. eexists. split; [reflexivity|]. vm_compute. reflexivity. Qed.

(** The literal [70000.01] denotes the double within half a unit in the
    last place, [2^-37], of 70000.01; that double is above 70000. *)
Lemma decimal_70000_01 :
  exists q, value (decimal 7000001 2) = Some q /\
            (Qabs (q - (7000001 # 100)) <= 2 ^ (-37))%Q /\ (70000 < q)%Q.
Proof.
  eexists. split; [reflexivity|]. split.
  - vm_compute. discriminate.
  - vm_compute. reflexivity.
Qed.

(** C8.  On every double [x], [validateAmount x] holds exactly when [x] is
    finite and its value lies between 1 and 70000, both included.  It holds
    at 1 and at 70000, and fails at 70000.01, at 0, at NaN and at
    Infinity. *)
Theorem validateAmount_iff (x : number) :
  is_double x ->
  (validateAmount x = true <->
   exists q, value x = Some q /\ (1 <= q <= 70000)%Q) /\
  validateAmount (num 1) = true /\
  validateAmount (num 70000) = true /\
  validateAmount (decimal 7000001 2) = false /\
  validateAmount (num 0) = false /\
  validateAmount NaN = false /\
  validateAmount Infinity = false.
Proof.
  intros V. split; [|repeat split; reflexivity].
  destruct num_1_value as [q1 [H1 E1]].
  destruct num_70000_value as [q7 [H7 E7]].
  assert (V1 : is_double (num 1)) by reflexivity.
  assert (V7 : is_double (num 70000)) by reflexivity.
  unfold validateAmount, ge.
  destruct (isFinite x) eqn:F.
  - destruct (value_scaled V F) as [q [Hq _]].
    rewrite andb_true_r, andb_true_iff.
    rewrite (le_value V1 V H1 Hq), (le_value V V7 Hq H7), E1, E7.
    split.
    + intros B. exists q. split; [exact Hq|exact B].
    + intros [q' [Hq' B]]. assert (q' = q) by congruence. now subst q'.
  - rewrite andb_false_r. split; [discriminate|].
    intros [q [Hq _]]. destruct x; simpl in *; discriminate.
Qed.

Lemma validateAmount_iff_witness :
  is_double (decimal 1005 1) /\ validateAmount (decimal 1005 1) = true /\
  exists q, value (decimal 1005 1) = Some q /\ (1 <= q <= 70000)%Q.
Proof.
  assert (V : is_double (decimal 1005 1)) by reflexivity.
  split; [exact V|].
  assert (T : validateAmount (decimal 1005 1) = true) by reflexivity.
  split; [exact T|].
  exact (proj1 (proj1 (validateAmount_iff V)) T).
Defined.

(** ** The callback path *)

Section Callback.

Variable StringToNumber : jsstring -> number.
Variable NumberToString : number -> jsstring.

Local Abbreviation ToNumber := (MpesaService.ToNumber StringToNumber).
Local Abbreviation ToString := (MpesaService.ToString NumberToString).
Local Abbreviation assign := (MpesaService.assign StringToNumber NumberToString).
Local Abbreviation processSTKCallback :=
  (MpesaService.processSTKCallback StringToNumber NumberToString).
Local Abbreviation handleSTKCallback :=
  (PaymentController.handleSTKCallback StringToNumber NumberToString).

Lemma last_named_snoc (name : string) (items : list STKPushCallback.item)
    (item : STKPushCallback.item) :
  last_named name (items ++ [item]) =
  if eqb (STKPushCallback.Name item) (lit name)
  then Some (STKPushCallback.Value item)
  else last_named name items.
Proof.
  unfold last_named. rewrite rev_app_distr. simpl.
  now destruct (eqb (STKPushCallback.Name item) (lit name)).
Qed.

Lemma fold_assign (items : list STKPushCallback.item) (l : locals) :
  fold_left assign items l =
  {| amount := extracted ToNumber "Amount" items (amount l);
     phoneNumber := extracted ToString "PhoneNumber" items (phoneNumber l);
     mpesaReceiptNumber :=
       extracted ToString "MpesaReceiptNumber" items (mpesaReceiptNumber l);
     transactionDate :=
       extracted ToString "TransactionDate" items (transactionDate l) |}.
Proof.
  induction items as [|item items IH] using rev_ind.
  - now destruct l.
  - rewrite fold_left_app. simpl fold_left. rewrite IH.
    unfold extracted. rewrite !last_named_snoc. unfold MpesaService.assign.
    destruct (eqb (STKPushCallback.Name item) (lit "Amount")) eqn:A.
    { apply eqb_eq in A. rewrite A. reflexivity. }
    destruct (eqb (STKPushCallback.Name item) (lit "PhoneNumber")) eqn:P.
    { apply eqb_eq in P. rewrite P. reflexivity. }
    destruct (eqb (STKPushCallback.Name item) (lit "MpesaReceiptNumber")) eqn:R.
    { apply eqb_eq in R. rewrite R. reflexivity. }
    destruct (eqb (STKPushCallback.Name item) (lit "TransactionDate")) eqn:D;
      reflexivity.
Qed.

(** The record [processSTKCallback] returns, case by case. *)
Lemma processSTKCallback_returns (callbackData : STKPushCallback.t) :
  let callback := STKPushCallback.stkCallback (STKPushCallback.Body callbackData) in
  let code := STKPushCallback.ResultCode callback in
  let items := metadata_items callbackData in
  processSTKCallback callbackData =
  Returned
    (if strict_eq code (num 0) then
       {| TransactionStatus.transactionId := STKPushCallback.MerchantRequestID callback;
          TransactionStatus.status := success;
          TransactionStatus.amount := extracted ToNumber "Amount" items (num 0);
          TransactionStatus.phoneNumber := extracted ToString "PhoneNumber" items [];
          TransactionStatus.mpesaReceiptNumber :=
            Some (extracted ToString "MpesaReceiptNumber" items []);
          TransactionStatus.transactionDate :=
            Some (extracted ToString "TransactionDate" items []);
          TransactionStatus.errorMessage := None |}
     else
       {| TransactionStatus.transactionId := STKPushCallback.MerchantRequestID callback;
          TransactionStatus.status :=
            if strict_eq code (num 1032) then cancelled else failed;
          TransactionStatus.amount := num 0;
          TransactionStatus.phoneNumber := [];
          TransactionStatus.mpesaReceiptNumber := None;
          TransactionStatus.transactionDate := None;
          TransactionStatus.errorMessage :=
            Some (STKPushCallback.ResultDesc callback) |}).
Proof.
  intros callback code items. unfold MpesaService.processSTKCallback.
  fold callback. fold code. unfold items, metadata_items. fold callback.
  destruct (strict_eq code (num 0)).
  - destruct (STKPushCallback.CallbackMetadata callback) as [metadata|].
    + rewrite fold_assign. reflexivity.
    + reflexivity.
  - destruct (strict_eq code (num 1032)); reflexivity.
Qed.

Lemma last_named_absent (name : string) (items : list STKPushCallback.item) :
  (forall item, In item items -> STKPushCallback.Name item <> lit name) ->
  last_named name items = None.
Proof.
  intros H. unfold last_named.
  destruct (find _ (rev items)) as [item|] eqn:F; [|reflexivity].
  apply find_some in F as [I E]. apply in_rev in I. apply eqb_eq in E.
  now apply H in I.
Qed.

(** C3.  [processSTKCallback] returns a record.  When [ResultCode === 0]
    its status is [success] and its amount, phone number, receipt number
    and transaction date are those of the metadata items named "Amount",
    "PhoneNumber", "MpesaReceiptNumber" and "TransactionDate" (the last of
    each name), or the number 0 and the empty string where the list has no
    such item: a number [n] as "Amount" gives the amount [n] and a string
    [s] gives [Number(s)]; a string [s] under one of the other three names
    gives [s] and a number [n] gives [String(n)].  When
    [ResultCode === 1032] its status is [cancelled], on every other code it
    is [failed], and in both cases [errorMessage] is the payload's
    [ResultDesc]. *)
Theorem processSTKCallback_mapping (callbackData : STKPushCallback.t) :
  let callback := STKPushCallback.stkCallback (STKPushCallback.Body callbackData) in
  let code := STKPushCallback.ResultCode callback in
  let items := metadata_items callbackData in
  exists transactionStatus,
    processSTKCallback callbackData = Returned transactionStatus /\
    (strict_eq code (num 0) = true ->
     TransactionStatus.status transactionStatus = success /\
     TransactionStatus.amount transactionStatus =
       match last_named "Amount" items with
       | Some (STKPushCallback.VNumber n) => n
       | Some (STKPushCallback.VString s) => StringToNumber s
       | None => num 0
       end /\
     TransactionStatus.phoneNumber transactionStatus =
       match last_named "PhoneNumber" items with
       | Some (STKPushCallback.VString s) => s
       | Some (STKPushCallback.VNumber n) => NumberToString n
       | None => []
       end /\
     TransactionStatus.mpesaReceiptNumber transactionStatus =
       match last_named "MpesaReceiptNumber" items with
       | Some (STKPushCallback.VString s) => Some s
       | Some (STKPushCallback.VNumber n) => Some (NumberToString n)
       | None => Some []
       end /\
     TransactionStatus.transactionDate transactionStatus =
       match last_named "TransactionDate" items with
       | Some (STKPushCallback.VString s) => Some s
       | Some (STKPushCallback.VNumber n) => Some (NumberToString n)
       | None => Some []
       end /\
     TransactionStatus.errorMessage transactionStatus = None) /\
    (strict_eq code (num 0) = false -> strict_eq code (num 1032) = true ->
     TransactionStatus.status transactionStatus = cancelled /\
     TransactionStatus.errorMessage transactionStatus =
       Some (STKPushCallback.ResultDesc callback)) /\
    (strict_eq code (num 0) = false -> strict_eq code (num 1032) = false ->
     TransactionStatus.status transactionStatus = failed /\
     TransactionStatus.errorMessage transactionStatus =
       Some (STKPushCallback.ResultDesc callback)).
Proof.
  intros callback code items. eexists. split.
  - apply processSTKCallback_returns.
  - fold callback. fold code. fold items. unfold extracted.
    destruct (strict_eq code (num 0)).
    + split; [|split; discriminate]. intros _. simpl.
      destruct (last_named "Amount" items) as [[s1|n1]|],
               (last_named "PhoneNumber" items) as [[s2|n2]|],
               (last_named "MpesaReceiptNumber" items) as [[s3|n3]|],
               (last_named "TransactionDate" items) as [[s4|n4]|];
        repeat split.
    + split; [discriminate|].
      destruct (strict_eq code (num 1032)); simpl; split;
        intros; try discriminate; split; reflexivity.
Qed.

(** C4.  On every payload of the [STKPushCallback] shape, with or without
    [CallbackMetadata] and whatever items it lists, [processSTKCallback]
    returns a record, and the endpoint answers 200 "Accepted".  A field
    whose item is missing holds the number 0 or the empty string (the
    receipt number and the date are [undefined] when the status is not
    [success]). *)
Theorem processSTKCallback_total (callbackData : STKPushCallback.t) :
  let items := metadata_items callbackData in
  let missing (name : string) :=
    forall item, In item items -> STKPushCallback.Name item <> lit name in
  exists transactionStatus,
    processSTKCallback callbackData = Returned transactionStatus /\
    handleSTKCallback callbackData =
      {| PaymentController.http_status := 200;
         PaymentController.ResultCode := 0;
         PaymentController.ResultDesc := lit "Accepted" |} /\
    (missing "Amount"%string -> TransactionStatus.amount transactionStatus = num 0) /\
    (missing "PhoneNumber"%string ->
     TransactionStatus.phoneNumber transactionStatus = []) /\
    (missing "MpesaReceiptNumber"%string ->
     TransactionStatus.mpesaReceiptNumber transactionStatus =
       match TransactionStatus.status transactionStatus with
       | success => Some []
       | _ => None
       end) /\
    (missing "TransactionDate"%string ->
     TransactionStatus.transactionDate transactionStatus =
       match TransactionStatus.status transactionStatus with
       | success => Some []
       | _ => None
       end) /\
    (STKPushCallback.CallbackMetadata
       (STKPushCallback.stkCallback (STKPushCallback.Body callbackData)) = None ->
     TransactionStatus.amount transactionStatus = num 0 /\
     TransactionStatus.phoneNumber transactionStatus = []).
Proof.
  intros items missing. eexists. split; [apply processSTKCallback_returns|].
  split.
  - unfold PaymentController.handleSTKCallback.
    now rewrite processSTKCallback_returns.
  - fold items. unfold extracted.
    set (code := STKPushCallback.ResultCode _).
    assert (N : STKPushCallback.CallbackMetadata
                  (STKPushCallback.stkCallback (STKPushCallback.Body callbackData))
                = None -> items = []).
    { unfold items, metadata_items. now intros ->. }
    destruct (strict_eq code (num 0)), (strict_eq code (num 1032));
      (split; [|split; [|split; [|split]]]); intros H;
      try rewrite (last_named_absent _ _ H);
      try rewrite (N H); try reflexivity; now split.
Qed.

(** C9.  The record [processSTKCallback] returns never has the status
    [pending]: it is [success], [cancelled] or [failed], and [failed] on
    every code that is neither 0 nor 1032. *)
Theorem processSTKCallback_terminal (callbackData : STKPushCallback.t) :
  let code :=
    STKPushCallback.ResultCode
      (STKPushCallback.stkCallback (STKPushCallback.Body callbackData)) in
  exists transactionStatus,
    processSTKCallback callbackData = Returned transactionStatus /\
    TransactionStatus.status transactionStatus <> pending /\
    (TransactionStatus.status transactionStatus = success \/
     TransactionStatus.status transactionStatus = failed \/
     TransactionStatus.status transactionStatus = cancelled) /\
    (strict_eq code (num 0) = false -> strict_eq code (num 1032) = false ->
     TransactionStatus.status transactionStatus = failed).
Proof.
  intros code. eexists. split; [apply processSTKCallback_returns|].
  fold code.
  destruct (strict_eq code (num 0)), (strict_eq code (num 1032));
    cbn [TransactionStatus.status];
    (split; [discriminate|split; [auto|intros; congruence]]).
Qed.

End Callback.

(** ** The token cache *)

Section Calls.

Variable config : MpesaConfig.t.
Variable upstream : provider.
Variable base64 : jsstring -> jsstring.
Variable format_YYYYMMDDHHmmss : Z -> jsstring.

Local Abbreviation getAccessToken :=
  (MpesaService.getAccessToken config upstream base64).
Local Abbreviation generatePassword :=
  (MpesaService.generatePassword config base64 format_YYYYMMDDHHmmss).
Local Abbreviation stkPushData := (MpesaService.stkPushData config).
Local Abbreviation queryData := (MpesaService.queryData config).
Local Abbreviation initiateSTKPush :=
  (MpesaService.initiateSTKPush config upstream base64 format_YYYYMMDDHHmmss).
Local Abbreviation querySTKPushStatus :=
  (MpesaService.querySTKPushStatus config upstream base64 format_YYYYMMDDHHmmss).
Local Abbreviation authorization := (basic config base64).
Local Abbreviation reachable :=
  (reachable config upstream base64 format_YYYYMMDDHHmmss).

Local Open Scope Z_scope.

Lemma getAccessToken_run (w : world) :
  getAccessToken w =
  if truthy (accessToken (this w)) && (clock w <? tokenExpiry (this w))
  then (Returned (accessToken (this w)), w)
  else
    let r := oauth_generate upstream (sent w) authorization in
    let w1 := answered (OAuthGenerate authorization) r w in
    match response r with
    | Returned data =>
        match if_truthy (AccessTokenResponse.access_token data) with
        | Some access_token =>
            (Returned access_token,
             {| this := {| accessToken := access_token;
                           tokenExpiry := clock w1 + 55 * 60 * 1000 |};
                clock := clock w1;
                sent := sent w1 |})
        | None =>
            (Thrown (lit "Authentication failed: Failed to obtain access token"),
             w1)
        end
    | Thrown message => (Thrown (lit "Authentication failed: " ++ message), w1)
    end.
Proof.
  unfold MpesaService.getAccessToken, try_catch, bind, get_this, now, ret.
  destruct (truthy (accessToken (this w)) && (clock w <? tokenExpiry (this w))).
  - reflexivity.
  - unfold get_oauth, http. fold authorization.
    destruct (response (oauth_generate upstream (sent w) authorization)) as [data|e].
    + destruct (if_truthy (AccessTokenResponse.access_token data)); reflexivity.
    + reflexivity.
Qed.

Lemma truthy_nonempty (s : jsstring) : truthy s = false <-> s = [].
Proof. destruct s; simpl; split; congruence. Qed.

Lemma if_truthy_Some (x : option jsstring) (s : jsstring) :
  if_truthy x = Some s -> x = Some s /\ s <> [].
Proof.
  destruct x as [[|c t]|]; simpl; try discriminate.
  intros H. injection H as <-. split; [reflexivity|discriminate].
Qed.

(** A newly constructed service is consistent, and time and calls to
    [getAccessToken] keep a service consistent. *)
Lemma constructor_consistent (date : Z) : consistent (constructor date).
Proof. unfold consistent. simpl. lia. Qed.

Lemma later_consistent (d : N) (w : world) : consistent w -> consistent (later d w).
Proof. unfold consistent. simpl. intros H E. specialize (H E). lia. Qed.

Lemma getAccessToken_consistent (w : world) :
  consistent w -> consistent (snd (getAccessToken w)).
Proof.
  unfold consistent. intros H. rewrite getAccessToken_run.
  destruct (truthy _ && _); [exact H|]. cbv zeta.
  destruct (response _) as [data|e]; simpl.
  - destruct (if_truthy _) as [token|] eqn:T; simpl.
    + apply if_truthy_Some in T as [_ T]. congruence.
    + intros E. specialize (H E). lia.
  - intros E. specialize (H E). lia.
Qed.

(** C5.  In a consistent world, a call of [getAccessToken] before the
    recorded expiry returns the cached token and changes nothing: no request
    is sent.  A call without a token or at or after the expiry sends exactly
    one request, the credential exchange.  If the response carries a token
    that is not empty, the call returns it and stores it with an expiry one
    hour less five minutes, that is 55 minutes, after the response arrived.
    If the response carries no token, or the exchange fails, the call throws
    an error that starts with "Authentication failed: " and the cache stays
    as it was. *)
Theorem getAccessToken_cache (w : world) :
  consistent w ->
  let r := oauth_generate upstream (sent w) authorization in
  let arrival := clock w + Z.of_N (latency r) in
  (clock w < tokenExpiry (this w) ->
   getAccessToken w = (Returned (accessToken (this w)), w)) /\
  (accessToken (this w) = [] \/ tokenExpiry (this w) <= clock w ->
   sent (snd (getAccessToken w)) = sent w ++ [OAuthGenerate authorization] /\
   match response r with
   | Returned data =>
       match AccessTokenResponse.access_token data with
       | Some (c :: t) =>
           fst (getAccessToken w) = Returned (c :: t) /\
           this (snd (getAccessToken w)) =
             {| accessToken := c :: t;
                tokenExpiry := arrival + (60 * 60 * 1000 - 5 * 60 * 1000) |}
       | _ =>
           fst (getAccessToken w) =
             Thrown (lit "Authentication failed: Failed to obtain access token") /\
           this (snd (getAccessToken w)) = this w
       end
   | Thrown message =>
       fst (getAccessToken w) = Thrown (lit "Authentication failed: " ++ message) /\
       this (snd (getAccessToken w)) = this w
   end).
Proof.
  intros C r arrival. rewrite getAccessToken_run. fold r. split.
  - intros E. assert (T : truthy (accessToken (this w)) = true).
    { destruct (truthy (accessToken (this w))) eqn:T; [reflexivity|].
      apply truthy_nonempty in T. specialize (C T). lia. }
    apply Z.ltb_lt in E. now rewrite T, E.
  - intros E.
    assert (F : truthy (accessToken (this w)) && (clock w <? tokenExpiry (this w)) = false).
    { destruct E as [E|E].
      - rewrite E. reflexivity.
      - apply andb_false_iff. right. now apply Z.ltb_ge. }
    rewrite F. cbv zeta.
    destruct (response r) as [data|message]; [|now split].
    destruct (AccessTokenResponse.access_token data) as [[|c t]|]; now split.
Qed.

(** ** The payment initiator and the poll path *)

Lemma initiateSTKPush_run (paymentRequest : PaymentRequest.t) (w : world) :
  initiateSTKPush paymentRequest w =
  match getAccessToken w with
  | (Thrown message, w1) =>
      (Thrown (lit "Payment initiation failed: " ++ message), w1)
  | (Returned token, w1) =>
      let timestamp := format_YYYYMMDDHHmmss (clock w1) in
      let password :=
        base64 (MpesaConfig.businessShortCode config
                ++ MpesaConfig.passkey config ++ timestamp) in
      let authorization := lit "Bearer " ++ token in
      let data := stkPushData password timestamp paymentRequest in
      let r := processrequest upstream (sent w1) authorization data in
      let w2 := answered (ProcessRequest authorization data) r w1 in
      match response r with
      | Thrown message =>
          (Thrown (lit "Payment initiation failed: " ++ message), w2)
      | Returned responseData =>
          (Returned
             (if is_string (STKPushResponse.ResponseCode responseData) (lit "0")
              then
                {| PaymentResponse.success := true;
                   PaymentResponse.transactionId :=
                     STKPushResponse.MerchantRequestID responseData;
                   PaymentResponse.checkoutRequestId :=
                     STKPushResponse.CheckoutRequestID responseData;
                   PaymentResponse.message :=
                     lit "Payment request sent successfully";
                   PaymentResponse.customerMessage :=
                     STKPushResponse.CustomerMessage responseData |}
              else
                {| PaymentResponse.success := false;
                   PaymentResponse.transactionId :=
                     Some (or_else (STKPushResponse.MerchantRequestID responseData) []);
                   PaymentResponse.checkoutRequestId :=
                     Some (or_else (STKPushResponse.CheckoutRequestID responseData) []);
                   PaymentResponse.message :=
                     or_else (STKPushResponse.ResponseDescription responseData)
                             (lit "Payment request failed");
                   PaymentResponse.customerMessage := None |}),
           w2)
      end
  end.
Proof.
  unfold MpesaService.initiateSTKPush, try_catch, bind.
  destruct (getAccessToken w) as [[token|message] w1]; [|reflexivity].
  unfold MpesaService.generatePassword, bind, now, ret, post_processrequest, http.
  cbv zeta. unfold answered.
  destruct (response _) as [responseData|message]; [|reflexivity].
  destruct (is_string _ _); reflexivity.
Qed.

Lemma querySTKPushStatus_run (checkoutRequestId : jsstring) (w : world) :
  querySTKPushStatus checkoutRequestId w =
  match getAccessToken w with
  | (Thrown message, w1) => (Thrown (lit "Status query failed: " ++ message), w1)
  | (Returned token, w1) =>
      let timestamp := format_YYYYMMDDHHmmss (clock w1) in
      let password :=
        base64 (MpesaConfig.businessShortCode config
                ++ MpesaConfig.passkey config ++ timestamp) in
      let authorization := lit "Bearer " ++ token in
      let data := queryData password timestamp checkoutRequestId in
      let r := query upstream (sent w1) authorization data in
      let w2 := answered (Query authorization data) r w1 in
      match response r with
      | Thrown message => (Thrown (lit "Status query failed: " ++ message), w2)
      | Returned responseData =>
          let code := QuerySTKResponse.ResultCode responseData in
          let status :=
            if eqb code (lit "0") then success
            else if eqb code (lit "1032") then cancelled
            else if eqb code (lit "1") then failed
            else pending in
          (Returned
             {| TransactionStatus.transactionId :=
                  QuerySTKResponse.MerchantRequestID responseData;
                TransactionStatus.status := status;
                TransactionStatus.amount := num 0;
                TransactionStatus.phoneNumber := [];
                TransactionStatus.mpesaReceiptNumber := None;
                TransactionStatus.transactionDate := None;
                TransactionStatus.errorMessage :=
                  match status with
                  | success => None
                  | _ => Some (QuerySTKResponse.ResultDesc responseData)
                  end |},
           w2)
      end
  end.
Proof.
  unfold MpesaService.querySTKPushStatus, try_catch, bind.
  destruct (getAccessToken w) as [[token|message] w1]; [|reflexivity].
  unfold MpesaService.generatePassword, bind, now, ret, post_query, http.
  cbv zeta. unfold answered.
  destruct (response _) as [responseData|message]; reflexivity.
Qed.

Lemma or_else_empty (x : option jsstring) :
  or_else x [] = match x with Some s => s | None => [] end.
Proof. now destruct x as [[|c s]|]. Qed.

Lemma or_else_default (x : option jsstring) (d : jsstring) :
  or_else x d = match x with Some (c :: s) => c :: s | _ => d end.
Proof. now destruct x as [[|c s]|]. Qed.

Lemma is_string_iff (x : option jsstring) (s : jsstring) :
  is_string x s = true <-> x = Some s.
Proof.
  destruct x as [v|]; simpl.
  - rewrite eqb_eq. split; congruence.
  - split; discriminate.
Qed.

(** C2, as the code has it.  [initiateSTKPush] throws exactly when the token
    cannot be obtained or the HTTP call fails, with the cause after
    "Payment initiation failed: ".  Whatever data the provider replies with
    is returned as a value.  With [ResponseCode] "0" the result has
    [success = true], the two identifiers and the customer message of the
    reply.  With any other [ResponseCode], or none, it has [success = false],
    the identifiers of the reply (the empty string for one that is absent),
    and as message the reply's [ResponseDescription] when that is present
    and not empty, "Payment request failed" otherwise. *)
Theorem initiateSTKPush_outcome (paymentRequest : PaymentRequest.t) (w : world) :
  match getAccessToken w with
  | (Thrown message, _) =>
      fst (initiateSTKPush paymentRequest w) =
      Thrown (lit "Payment initiation failed: " ++ message)
  | (Returned token, w1) =>
      let timestamp := format_YYYYMMDDHHmmss (clock w1) in
      let password :=
        base64 (MpesaConfig.businessShortCode config
                ++ MpesaConfig.passkey config ++ timestamp) in
      let data := stkPushData password timestamp paymentRequest in
      match response (processrequest upstream (sent w1) (lit "Bearer " ++ token) data) with
      | Thrown message =>
          fst (initiateSTKPush paymentRequest w) =
          Thrown (lit "Payment initiation failed: " ++ message)
      | Returned responseData =>
          exists result,
            fst (initiateSTKPush paymentRequest w) = Returned result /\
            (STKPushResponse.ResponseCode responseData = Some (lit "0") ->
             PaymentResponse.success result = true /\
             PaymentResponse.transactionId result =
               STKPushResponse.MerchantRequestID responseData /\
             PaymentResponse.checkoutRequestId result =
               STKPushResponse.CheckoutRequestID responseData /\
             PaymentResponse.customerMessage result =
               STKPushResponse.CustomerMessage responseData /\
             PaymentResponse.message result =
               lit "Payment request sent successfully") /\
            (STKPushResponse.ResponseCode responseData <> Some (lit "0") ->
             PaymentResponse.success result = false /\
             PaymentResponse.transactionId result =
               Some match STKPushResponse.MerchantRequestID responseData with
                    | Some id => id
                    | None => []
                    end /\
             PaymentResponse.checkoutRequestId result =
               Some match STKPushResponse.CheckoutRequestID responseData with
                    | Some id => id
                    | None => []
                    end /\
             PaymentResponse.message result =
               match STKPushResponse.ResponseDescription responseData with
               | Some (c :: description) => c :: description
               | _ => lit "Payment request failed"
               end)
      end
  end.
Proof.
  rewrite initiateSTKPush_run.
  destruct (getAccessToken w) as [[token|message] w1]; [|reflexivity].
  cbv zeta. destruct (response _) as [responseData|message]; [|reflexivity].
  eexists. split; [reflexivity|].
  destruct (is_string _ _) eqn:E.
  - apply is_string_iff in E. split; [|congruence].
    intros _. repeat split.
  - split.
    + intros E'. apply is_string_iff in E'. congruence.
    + intros _. cbn [PaymentResponse.success PaymentResponse.transactionId
                     PaymentResponse.checkoutRequestId PaymentResponse.message].
      rewrite !or_else_empty, or_else_default. repeat split.
Qed.

Lemma answered_consistent {A} (rq : request) (r : reply A) (w : world) :
  consistent w -> consistent (answered rq r w).
Proof. unfold consistent. simpl. intros H E. specialize (H E). lia. Qed.

Lemma reachable_consistent (w : world) : reachable w -> consistent w.
Proof.
  induction 1 as [date|d w _ IH|w _ IH|paymentRequest w _ IH|checkoutRequestId w _ IH].
  - apply constructor_consistent.
  - now apply later_consistent.
  - now apply getAccessToken_consistent.
  - rewrite initiateSTKPush_run.
    pose proof (getAccessToken_consistent IH) as C.
    destruct (getAccessToken w) as [[token|message] w1]; [|exact C].
    cbv zeta. destruct (response _); now apply answered_consistent.
  - rewrite querySTKPushStatus_run.
    pose proof (getAccessToken_consistent IH) as C.
    destruct (getAccessToken w) as [[token|message] w1]; [|exact C].
    cbv zeta. destruct (response _); now apply answered_consistent.
Qed.

End Calls.

(** ** The two paths from a result code to a status *)

Section Paths.

Variable config : MpesaConfig.t.
Variable upstream : provider.
Variable base64 : jsstring -> jsstring.
Variable format_YYYYMMDDHHmmss : Z -> jsstring.
Variable StringToNumber : jsstring -> number.
Variable NumberToString : number -> jsstring.

Local Abbreviation getAccessToken :=
  (MpesaService.getAccessToken config upstream base64).
Local Abbreviation queryData := (MpesaService.queryData config).
Local Abbreviation querySTKPushStatus :=
  (MpesaService.querySTKPushStatus config upstream base64 format_YYYYMMDDHHmmss).
Local Abbreviation processSTKCallback :=
  (MpesaService.processSTKCallback StringToNumber NumberToString).

Local Open Scope Z_scope.

Lemma callback_status_num (c : Z) :
  Z.abs c < 2 ^ 53 ->
  callback_status (num c) =
  if c =? 0 then success else if c =? 1032 then cancelled else failed.
Proof.
  intros B. unfold callback_status.
  rewrite !strict_eq_num by (exact B || reflexivity). reflexivity.
Qed.

Lemma poll_status_code_string (c : Z) :
  poll_status (code_string c) =
  if c =? 0 then success
  else if c =? 1032 then cancelled
  else if c =? 1 then failed
  else pending.
Proof.
  unfold poll_status.
  change (lit "0") with (code_string 0).
  change (lit "1032") with (code_string 1032).
  change (lit "1") with (code_string 1).
  now rewrite !code_string_eqb.
Qed.

(** C1, as the code has it.  On each path the status is a function of the
    result code alone.  The callback path gives [success] for 0,
    [cancelled] for 1032 and [failed] for every other code.  The poll path
    gives [success] for "0", [cancelled] for "1032", [failed] for "1" and
    [pending] for every other code.  So for an integer code the two paths
    agree exactly on 0, 1032 and 1. *)
Theorem status_mapping_paths :
  (forall callbackData,
     exists transactionStatus,
       processSTKCallback callbackData = Returned transactionStatus /\
       TransactionStatus.status transactionStatus =
         callback_status
           (STKPushCallback.ResultCode
              (STKPushCallback.stkCallback (STKPushCallback.Body callbackData)))) /\
  (forall checkoutRequestId w,
     match getAccessToken w with
     | (Thrown message, _) =>
         fst (querySTKPushStatus checkoutRequestId w) =
         Thrown (lit "Status query failed: " ++ message)
     | (Returned token, w1) =>
         let timestamp := format_YYYYMMDDHHmmss (clock w1) in
         let password :=
           base64 (MpesaConfig.businessShortCode config
                   ++ MpesaConfig.passkey config ++ timestamp) in
         let data := queryData password timestamp checkoutRequestId in
         match response (query upstream (sent w1) (lit "Bearer " ++ token) data) with
         | Thrown message =>
             fst (querySTKPushStatus checkoutRequestId w) =
             Thrown (lit "Status query failed: " ++ message)
         | Returned responseData =>
             exists transactionStatus,
               fst (querySTKPushStatus checkoutRequestId w) =
                 Returned transactionStatus /\
               TransactionStatus.status transactionStatus =
                 poll_status (QuerySTKResponse.ResultCode responseData)
         end
     end) /\
  (forall c : Z,
     Z.abs c < 2 ^ 53 ->
     callback_status (num c) =
       (if c =? 0 then success else if c =? 1032 then cancelled else failed) /\
     poll_status (code_string c) =
       (if c =? 0 then success
        else if c =? 1032 then cancelled
        else if c =? 1 then failed
        else pending) /\
     (callback_status (num c) = poll_status (code_string c) <->
      c = 0 \/ c = 1032 \/ c = 1)).
Proof.
  split; [|split].
  - intros callbackData. eexists. split; [apply processSTKCallback_returns|].
    unfold callback_status.
    set (code := STKPushCallback.ResultCode _).
    destruct (strict_eq code (num 0)), (strict_eq code (num 1032)); reflexivity.
  - intros checkoutRequestId w. rewrite querySTKPushStatus_run.
    destruct (getAccessToken w) as [[token|message] w1]; [|reflexivity].
    cbv zeta. destruct (response _) as [responseData|message]; [|reflexivity].
    eexists. split; reflexivity.
  - intros c B.
    rewrite (@callback_status_num c B), poll_status_code_string.
    split; [reflexivity|]. split; [reflexivity|].
    destruct (Z.eqb_spec c 0) as [E0|E0]; [now intuition|].
    destruct (Z.eqb_spec c 1032) as [E1032|E1032]; [now intuition|].
    destruct (Z.eqb_spec c 1) as [E1|E1]; [now intuition|].
    split; [discriminate|]. intros [H|[H|H]]; contradiction.
Qed.

End Paths.

(** ** Concrete runs *)

(** C1, as stated, fails: for the code 1037 the poll path gives [pending]
    and the callback path gives [failed]. *)
Lemma paths_disagree_on_1037 :
  let upstream := Stub.provider Stub.token Stub.accepted (Stub.status "1037") in
  QuerySTKResponse.ResultCode (Stub.status "1037") = code_string 1037 /\
  fst (querySTKPushStatus Stub.config upstream Stub.base64
         Stub.format_YYYYMMDDHHmmss (lit "ws_CO_191220191020363925")
         (constructor 0)) =
  Returned
    {| TransactionStatus.transactionId := lit "29115-34620561-1";
       TransactionStatus.status := pending;
       TransactionStatus.amount := num 0;
       TransactionStatus.phoneNumber := [];
       TransactionStatus.mpesaReceiptNumber := None;
       TransactionStatus.transactionDate := None;
       TransactionStatus.errorMessage := Some (lit "The result of the request") |} /\
  processSTKCallback Stub.StringToNumber Stub.NumberToString
    (Stub.callback (num 1037)) =
  Returned
    {| TransactionStatus.transactionId := lit "29115-34620561-1";
       TransactionStatus.status := failed;
       TransactionStatus.amount := num 0;
       TransactionStatus.phoneNumber := [];
       TransactionStatus.mpesaReceiptNumber := None;
       TransactionStatus.transactionDate := None;
       TransactionStatus.errorMessage := Some (lit "The result of the request") |}.
Proof. repeat split. Qed.

Lemma getAccessToken_cache_witness :
  let upstream := Stub.provider Stub.token Stub.accepted (Stub.status "0") in
  let w := constructor 1700000000000 in
  let w' := snd (getAccessToken Stub.config upstream Stub.base64 w) in
  sent w' = [OAuthGenerate (lit "Basic key:secret")] /\
  this w' = {| accessToken := lit "t0k3n";
               tokenExpiry := 1700000000200 + 55 * 60 * 1000 |} /\
  getAccessToken Stub.config upstream Stub.base64 (later 3299999 w') =
    (Returned (lit "t0k3n"), later 3299999 w').
Proof.
  intros upstream w w'.
  split; [reflexivity|]. split; [reflexivity|].
  assert (C : consistent (later 3299999 w')) by (intros E; discriminate E).
  apply (proj1 (@getAccessToken_cache Stub.config upstream Stub.base64 _ C)).
  reflexivity.
Defined.

(** C2, as stated, fails: to a rejection whose [ResponseDescription] is
    the empty string, [initiateSTKPush] gives not that description as the
    message but "Payment request failed". *)
Lemma initiateSTKPush_empty_description :
  let upstream := Stub.provider Stub.token Stub.rejected (Stub.status "0") in
  STKPushResponse.ResponseDescription Stub.rejected = Some [] /\
  fst (initiateSTKPush Stub.config upstream Stub.base64
         Stub.format_YYYYMMDDHHmmss Stub.paymentRequest (constructor 0)) =
  Returned
    {| PaymentResponse.success := false;
       PaymentResponse.transactionId := Some (lit "29115-34620561-1");
       PaymentResponse.checkoutRequestId := Some [];
       PaymentResponse.message := lit "Payment request failed";
       PaymentResponse.customerMessage := None |}.
Proof. split; reflexivity. Qed.

(** The push is accepted: the result carries the identifiers and the
    message "Payment request sent successfully". *)
Example initiateSTKPush_accepted :
  let upstream := Stub.provider Stub.token Stub.accepted (Stub.status "0") in
  fst (initiateSTKPush Stub.config upstream Stub.base64
         Stub.format_YYYYMMDDHHmmss Stub.paymentRequest (constructor 0)) =
  Returned
    {| PaymentResponse.success := true;
       PaymentResponse.transactionId := Some (lit "29115-34620561-1");
       PaymentResponse.checkoutRequestId := Some (lit "ws_CO_191220191020363925");
       PaymentResponse.message := lit "Payment request sent successfully";
       PaymentResponse.customerMessage :=
         Some (lit "Success. Request accepted for processing") |}.
Proof. reflexivity. Qed.

(** One call sends the credential exchange and then the push, each with
    the header built for it. *)
Example initiateSTKPush_requests :
  let upstream := Stub.provider Stub.token Stub.accepted (Stub.status "0") in
  let w' := snd (initiateSTKPush Stub.config upstream Stub.base64
                   Stub.format_YYYYMMDDHHmmss Stub.paymentRequest (constructor 0)) in
  sent w' =
  [OAuthGenerate (lit "Basic key:secret");
   ProcessRequest (lit "Bearer t0k3n")
     (stkPushData Stub.config (lit "174379passkey20240101120000")
        (lit "20240101120000") Stub.paymentRequest)] /\
  clock w' = 400%Z.
Proof. split; reflexivity. Qed.

(** A call at the expiry refreshes the token, once. *)
Example getAccessToken_expired :
  let upstream := Stub.provider Stub.token Stub.accepted (Stub.status "0") in
  let w' := snd (getAccessToken Stub.config upstream Stub.base64 (constructor 0)) in
  let w'' := snd (getAccessToken Stub.config upstream Stub.base64 (later 3300000 w')) in
  sent w'' = [OAuthGenerate (lit "Basic key:secret");
              OAuthGenerate (lit "Basic key:secret")] /\
  tokenExpiry (this w'') = (3300200 + 200 + 3300000)%Z.
Proof. split; reflexivity. Qed.

(** A successful callback with an amount of 100. *)
Example processSTKCallback_amount :
  processSTKCallback Stub.StringToNumber Stub.NumberToString
    {| STKPushCallback.Body :=
         {| STKPushCallback.stkCallback :=
              {| STKPushCallback.MerchantRequestID := lit "29115-34620561-1";
                 STKPushCallback.CheckoutRequestID := lit "ws_CO_191220191020363925";
                 STKPushCallback.ResultCode := num 0;
                 STKPushCallback.ResultDesc :=
                   lit "The service request is processed successfully.";
                 STKPushCallback.CallbackMetadata :=
                   Some {| STKPushCallback.Item :=
                             [{| STKPushCallback.Name := lit "Amount";
                                 STKPushCallback.Value :=
                                   STKPushCallback.VNumber (num 100) |}] |} |} |} |} =
  Returned
    {| TransactionStatus.transactionId := lit "29115-34620561-1";
       TransactionStatus.status := success;
       TransactionStatus.amount := num 100;
       TransactionStatus.phoneNumber := [];
       TransactionStatus.mpesaReceiptNumber := Some [];
       TransactionStatus.transactionDate := Some [];
       TransactionStatus.errorMessage := None |}.
Proof. reflexivity. Qed.

(** A callback with the code 1032. *)
Example processSTKCallback_cancelled :
  processSTKCallback Stub.StringToNumber Stub.NumberToString
    (Stub.callback (num 1032)) =
  Returned
    {| TransactionStatus.transactionId := lit "29115-34620561-1";
       TransactionStatus.status := cancelled;
       TransactionStatus.amount := num 0;
       TransactionStatus.phoneNumber := [];
       TransactionStatus.mpesaReceiptNumber := None;
       TransactionStatus.transactionDate := None;
       TransactionStatus.errorMessage := Some (lit "The result of the request") |}.
Proof. reflexivity. Qed.


(** ** Validated phone numbers *)

Lemma subscriber_digits (t : jsstring) :
  subscriber t = true -> List.length t = 9%nat /\ forallb is_digit t = true.
Proof.
  destruct t as [|c ds]; simpl; [discriminate|]. intros H.
  apply andb_true_iff in H as [H Hds]. apply andb_true_iff in H as [Hc Hl].
  apply Nat.eqb_eq in Hl. split; [now rewrite Hl|].
  rewrite Hds, andb_true_r.
  unfold is_1_or_7 in Hc. apply orb_true_iff in Hc as [Hc|Hc];
    apply N.eqb_eq in Hc; subst c; reflexivity.
Qed.

Lemma schema_pattern_254 (t : jsstring) :
  subscriber t = true -> phoneNumberSchema_pattern (lit "254" ++ t) = true.
Proof.
  intros H. apply subscriber_digits in H as [L D].
  unfold phoneNumberSchema_pattern.
  rewrite (startsWith_app (lit "254") t).
  change (substring (lit "254" ++ t) 3) with t. rewrite L, D. reflexivity.
Qed.

Lemma regex_shape (c : jsstring) :
  kenyanPhoneRegex c = true ->
  exists t, subscriber t = true /\ (c = lit "254" ++ t \/ c = lit "0" ++ t).
Proof.
  unfold kenyanPhoneRegex.
  destruct (startsWith c (lit "254")) eqn:E254.
  - intros H. exists (substring c 3). split; [exact H|]. left.
    exact (startsWith_split _ _ E254).
  - destruct (startsWith c (lit "0")) eqn:E0; [|discriminate].
    intros H. exists (substring c 1). split; [exact H|]. right.
    exact (startsWith_split _ _ E0).
Qed.

Lemma local_prefix (t : jsstring) :
  subscriber t = true ->
  startsWith (lit "0" ++ t) (lit "07") || startsWith (lit "0" ++ t) (lit "01") = true.
Proof.
  destruct t as [|d ds]; [discriminate|]. simpl. intros H.
  apply andb_true_iff in H as [H _]. apply andb_true_iff in H as [H _].
  unfold is_1_or_7 in H. apply orb_true_iff in H as [H|H];
    apply N.eqb_eq in H; subst d; reflexivity.
Qed.

Lemma validated_format (s : jsstring) :
  validatePhoneNumber s = true ->
  exists t, subscriber t = true /\ formatPhoneNumber s = Returned (lit "254" ++ t).
Proof.
  unfold validatePhoneNumber. intros V.
  destruct (regex_shape _ V) as [t [St C]]. exists t. split; [exact St|].
  pose proof (formatPhoneNumber_cases s) as F. cbv zeta in F.
  destruct C as [C|C]; rewrite C in F.
  - rewrite (international_not_local _ (startsWith_app (lit "254") t)) in F.
    destruct F as [[F _]|[[_ [_ F]]|[_ [F _]]]].
    + discriminate F.
    + exact F.
    + now rewrite (startsWith_app (lit "254") t) in F.
  - rewrite (local_prefix _ St) in F.
    destruct F as [[_ F]|[[F _]|[F _]]]; [exact F|discriminate F|discriminate F].
Qed.

Lemma regex_kept (s : jsstring) : kenyanPhoneRegex s = true -> kept s.
Proof.
  intros R. destruct (regex_shape _ R) as [t [St C]].
  pose proof (subscriber_kept _ St) as Kt. destruct C as [->| ->].
  - exact (kept_app lit_254_kept Kt).
  - apply Forall_cons; [reflexivity|exact Kt].
Qed.

(** X1.  A number that [validatePhoneNumber] accepts is normalised by
    [formatPhoneNumber] to "254" and nine digits, which the pattern of
    [phoneNumberSchema] and [validatePhoneNumber] itself accept. *)
Theorem validated_phone_is_canonical (s : jsstring) :
  validatePhoneNumber s = true ->
  exists t,
    subscriber t = true /\
    formatPhoneNumber s = Returned (lit "254" ++ t) /\
    phoneNumberSchema_pattern (lit "254" ++ t) = true /\
    validatePhoneNumber (lit "254" ++ t) = true.
Proof.
  intros V. destruct (validated_format _ V) as [t [St F]]. exists t.
  pose proof (subscriber_kept _ St) as Kt.
  assert (K254 : kept (lit "254" ++ t)) by exact (kept_app lit_254_kept Kt).
  split; [exact St|]. split; [exact F|]. split.
  - now apply schema_pattern_254.
  - unfold validatePhoneNumber, kenyanPhoneRegex. rewrite (kept_clean K254).
    now rewrite (startsWith_app (lit "254") t).
Qed.

Lemma one_or_seven_kept (c : code_unit) : is_1_or_7 c = true -> stripped c = false.
Proof.
  unfold is_1_or_7. intros H. apply orb_true_iff in H as [H|H];
    apply N.eqb_eq in H; subst c; reflexivity.
Qed.

(** X2.  The local and the international spelling of a number have one
    normal form and two rate-limit keys. *)
Theorem spellings_share_format_not_key (ip rest : jsstring) (c : code_unit) :
  is_1_or_7 c = true ->
  formatPhoneNumber (lit "0" ++ c :: rest) = Returned (lit "254" ++ c :: clean rest) /\
  formatPhoneNumber (lit "254" ++ c :: rest) = Returned (lit "254" ++ c :: clean rest) /\
  AuthMiddleware.keyGenerator ip (Some (lit "0" ++ c :: rest)) <>
  AuthMiddleware.keyGenerator ip (Some (lit "254" ++ c :: rest)).
Proof.
  intros Hc. pose proof (one_or_seven_kept _ Hc) as Kc.
  assert (C0 : clean (lit "0" ++ c :: rest) = lit "0" ++ c :: clean rest).
  { unfold clean. simpl. now rewrite Kc. }
  assert (C254 : clean (lit "254" ++ c :: rest) = lit "254" ++ c :: clean rest).
  { unfold clean. simpl. now rewrite Kc. }
  split; [|split].
  - unfold formatPhoneNumber. rewrite C0.
    assert (L : startsWith (lit "0" ++ c :: clean rest) (lit "07")
                || startsWith (lit "0" ++ c :: clean rest) (lit "01") = true).
    { unfold is_1_or_7 in Hc. apply orb_true_iff in Hc as [H|H];
        apply N.eqb_eq in H; subst c; reflexivity. }
    rewrite L.
    now rewrite (startsWith_app (lit "254") (substring (lit "0" ++ c :: clean rest) 1)).
  - unfold formatPhoneNumber. rewrite C254.
    rewrite (international_not_local _ (startsWith_app (lit "254") (c :: clean rest))).
    now rewrite (startsWith_app (lit "254") (c :: clean rest)).
  - unfold AuthMiddleware.keyGenerator, or_else. simpl if_truthy. intros E.
    apply app_inv_head in E. discriminate E.
Qed.


(** ** [sanitizeString] *)

Lemma trimStart_idempotent (s : jsstring) : trimStart (trimStart s) = trimStart s.
Proof.
  induction s as [|c s IH]; simpl; [reflexivity|].
  destruct (is_whitespace c) eqn:W; [exact IH|]. simpl. now rewrite W.
Qed.

Lemma trimStart_snoc (s : jsstring) (c : code_unit) :
  is_whitespace c = false -> trimStart (s ++ [c]) = trimStart s ++ [c].
Proof.
  intros W. induction s as [|d s IH]; simpl.
  - now rewrite W.
  - destruct (is_whitespace d); [exact IH|reflexivity].
Qed.

Lemma trimEnd_cons (c : code_unit) (s : jsstring) :
  is_whitespace c = false -> trimEnd (c :: s) = c :: trimEnd s.
Proof.
  intros W. unfold trimEnd. simpl rev.
  rewrite (@trimStart_snoc (rev s) c W), rev_app_distr. reflexivity.
Qed.

Lemma trimEnd_idempotent (s : jsstring) : trimEnd (trimEnd s) = trimEnd s.
Proof. unfold trimEnd. now rewrite rev_involutive, trimStart_idempotent. Qed.

Lemma trim_idempotent (s : jsstring) : trim (trim s) = trim s.
Proof.
  unfold trim. destruct (trimStart s) as [|c v] eqn:T; [reflexivity|].
  assert (W : is_whitespace c = false).
  { clear -T. induction s as [|d s IH]; simpl in T; [discriminate|].
    destruct (is_whitespace d) eqn:D; [now apply IH|]. congruence. }
  rewrite (@trimEnd_cons c v W). simpl. rewrite W.
  rewrite (@trimEnd_cons c (trimEnd v) W). now rewrite trimEnd_idempotent.
Qed.

Lemma trimStart_incl (s : jsstring) (c : code_unit) : In c (trimStart s) -> In c s.
Proof.
  induction s as [|d s IH]; simpl; [tauto|].
  destruct (is_whitespace d); [now right; apply IH|]. now intros H.
Qed.

Lemma trim_incl (s : jsstring) (c : code_unit) : In c (trim s) -> In c s.
Proof.
  unfold trim, trimEnd. intros H. apply in_rev, trimStart_incl in H.
  apply in_rev in H. now apply trimStart_incl.
Qed.

Lemma trimStart_length (s : jsstring) : (List.length (trimStart s) <= List.length s)%nat.
Proof.
  induction s as [|d s IH]; simpl; [lia|].
  destruct (is_whitespace d); simpl; lia.
Qed.

Lemma trim_length (s : jsstring) : (List.length (trim s) <= List.length s)%nat.
Proof.
  unfold trim, trimEnd. rewrite length_rev.
  pose proof (trimStart_length (rev (trimStart s))) as H.
  rewrite length_rev in H. pose proof (trimStart_length s). lia.
Qed.

Lemma safe_filter (s : jsstring) :
  safe s -> filter (fun c => negb (unsafe c)) s = s.
Proof.
  induction 1 as [|c s Hc _ IH]; simpl; [reflexivity|].
  rewrite Hc. simpl. now rewrite IH.
Qed.

Lemma sanitizeString_is_safe (s : jsstring) : safe (sanitizeString s).
Proof.
  apply Forall_forall. intros c Hc. unfold sanitizeString in Hc.
  apply filter_In in Hc as [_ Hc]. now apply negb_true_iff in Hc.
Qed.

Lemma safe_trim (s : jsstring) : safe s -> safe (trim s).
Proof.
  unfold safe. rewrite !Forall_forall. intros H c Hc. now apply H, trim_incl.
Qed.

Lemma sanitizeString_safe (s : jsstring) : safe s -> sanitizeString s = trim s.
Proof. intros H. unfold sanitizeString. now apply safe_filter, safe_trim. Qed.

(** X3.  What [sanitizeString] returns has only word characters, whitespace,
    "-", "_" and ".", and is not longer than the input. *)
Theorem sanitizeString_safe_output (s : jsstring) :
  Forall (fun c => is_word c || is_whitespace c || N.eqb c 45 || N.eqb c 95
                   || N.eqb c 46 = true) (sanitizeString s) /\
  (List.length (sanitizeString s) <= List.length s)%nat.
Proof.
  split.
  - pose proof (sanitizeString_is_safe s) as H. unfold safe in H.
    rewrite Forall_forall in *. intros c Hc. specialize (H c Hc).
    unfold unsafe in H. now apply negb_false_iff in H.
  - unfold sanitizeString.
    pose proof (filter_length_le (fun c => negb (unsafe c)) (trim s)).
    pose proof (trim_length s). lia.
Qed.

(** X4.  [sanitizeString] leaves a string of allowed characters without
    whitespace at its ends as it is, and applying it a third time changes
    nothing any more. *)
Theorem sanitizeString_stable (s : jsstring) :
  (safe s -> trimmed s -> sanitizeString s = s) /\
  sanitizeString (sanitizeString (sanitizeString s)) =
  sanitizeString (sanitizeString s).
Proof.
  split.
  - intros S T. rewrite (sanitizeString_safe S). exact T.
  - pose proof (sanitizeString_is_safe s) as S1.
    rewrite (sanitizeString_safe S1).
    rewrite (sanitizeString_safe (safe_trim S1)). apply trim_idempotent.
Qed.

Lemma word_not_whitespace (c : code_unit) : is_word c = true -> is_whitespace c = false.
Proof.
  unfold is_word. intros H.
  assert (B : (48 <= c <= 122)%N).
  { repeat (apply orb_true_iff in H as [H|H]);
      try (apply andb_true_iff in H as [H1 H2];
           apply N.leb_le in H1; apply N.leb_le in H2; lia).
    apply N.eqb_eq in H. lia. }
  unfold is_whitespace. simpl.
  repeat match goal with
         | |- context [N.eqb c ?k] =>
             let E := fresh in destruct (N.eqb_spec c k) as [E|E]; [lia|clear E]
         end.
  destruct (N.leb_spec 8192 c); [lia|]. reflexivity.
Qed.

Lemma word_safe (c : code_unit) : is_word c = true -> unsafe c = false.
Proof. unfold unsafe. now intros ->. Qed.

Lemma trimEnd_last (s : jsstring) (c : code_unit) :
  is_whitespace c = false -> trimEnd (s ++ [c]) = s ++ [c].
Proof.
  intros W. unfold trimEnd. rewrite rev_app_distr. simpl. rewrite W.
  change (c :: rev s) with (rev [c] ++ rev s).
  now rewrite <- rev_app_distr, rev_involutive.
Qed.

(** X5.  The whitespace is trimmed before the characters are removed, so
    the result can start with whitespace, and a second application
    removes it. *)
Theorem sanitizeString_not_idempotent (b : code_unit) (w : jsstring) :
  unsafe b = true -> w <> [] -> Forall (fun c => is_word c = true) w ->
  sanitizeString (b :: 32%N :: w) = 32%N :: w /\
  sanitizeString (sanitizeString (b :: 32%N :: w)) = w /\
  sanitizeString (sanitizeString (b :: 32%N :: w)) <> sanitizeString (b :: 32%N :: w).
Proof.
  intros Hb Hw W.
  assert (Wb : is_whitespace b = false).
  { unfold unsafe in Hb. apply negb_true_iff in Hb.
    repeat (apply orb_false_iff in Hb as [Hb ?]). assumption. }
  assert (Sw : safe w).
  { unfold safe. rewrite Forall_forall in *. intros c Hc. now apply word_safe, W. }
  destruct (exists_last Hw) as [w' [c E]].
  assert (Wc : is_whitespace c = false).
  { apply word_not_whitespace. rewrite Forall_forall in W. apply W.
    rewrite E. apply in_or_app. right. now left. }
  assert (T1 : trim (b :: 32%N :: w) = b :: 32%N :: w).
  { unfold trim. simpl trimStart. rewrite Wb. rewrite E.
    change (b :: 32%N :: w' ++ [c]) with ((b :: 32%N :: w') ++ [c]).
    now apply trimEnd_last. }
  assert (F1 : sanitizeString (b :: 32%N :: w) = 32%N :: w).
  { unfold sanitizeString. rewrite T1. simpl. rewrite Hb. simpl.
    f_equal. now apply safe_filter. }
  assert (T2 : trim (32%N :: w) = w).
  { unfold trim. simpl trimStart.
    destruct w as [|d w0]; [congruence|]. simpl.
    inversion W as [|? ? Hd W0]; subst.
    rewrite (word_not_whitespace _ Hd). rewrite E. now apply trimEnd_last. }
  assert (F2 : sanitizeString (32%N :: w) = w).
  { unfold sanitizeString. rewrite T2. now apply safe_filter. }
  split; [exact F1|]. rewrite F1, F2. split; [reflexivity|].
  intros H. apply (f_equal (@List.length _)) in H. simpl in H. lia.
Qed.


(** ** The configuration *)

Lemma unset_false (process_env : Config.environment) (v : jsstring) :
  Config.unset process_env v = false <->
  exists x, process_env v = Some x /\ x <> [].
Proof.
  unfold Config.unset, if_truthy.
  destruct (process_env v) as [[|c x]|]; simpl; split;
    try discriminate; try reflexivity.
  - intros [x [E N]]. injection E as <-. congruence.
  - intros _. eexists. split; [reflexivity|discriminate].
  - intros [x [E _]]. discriminate.
Qed.

Lemma set_value (process_env : Config.environment) (v : jsstring) :
  Config.unset process_env v = false ->
  process_env v = Some (or_else (process_env v) []) /\
  or_else (process_env v) [] <> [].
Proof.
  intros H. apply unset_false in H as [x [E N]]. rewrite E.
  destruct x as [|c x]; [congruence|]. split; [reflexivity|discriminate].
Qed.

(** X6.  [validateConfig] returns exactly when the four required variables
    are set and not empty, and then the credentials of [config.mpesa] are
    the values of these variables. *)
Theorem validateConfig_iff (process_env : Config.environment) :
  (Config.validateConfig process_env = Returned tt <->
   forall varName, In varName Config.requiredVars ->
                   exists x, process_env varName = Some x /\ x <> []) /\
  (Config.validateConfig process_env = Returned tt ->
   let mpesa := Config.config_mpesa process_env in
   process_env (lit "MPESA_CONSUMER_KEY") = Some (Config.consumerKey mpesa) /\
   process_env (lit "MPESA_CONSUMER_SECRET") = Some (Config.consumerSecret mpesa) /\
   process_env (lit "MPESA_BUSINESS_SHORT_CODE") = Some (Config.businessShortCode mpesa) /\
   process_env (lit "MPESA_PASSKEY") = Some (Config.passkey mpesa) /\
   Config.consumerKey mpesa <> [] /\ Config.consumerSecret mpesa <> [] /\
   Config.businessShortCode mpesa <> [] /\ Config.passkey mpesa <> []).
Proof.
  assert (R : Config.validateConfig process_env = Returned tt <->
              forall v, In v Config.requiredVars -> Config.unset process_env v = false).
  { unfold Config.validateConfig.
    destruct (filter (Config.unset process_env) Config.requiredVars) as [|m l] eqn:F.
    - split; [|reflexivity]. intros _ v Hv.
      destruct (Config.unset process_env v) eqn:U; [|reflexivity].
      assert (I : In v (filter (Config.unset process_env) Config.requiredVars))
        by (apply filter_In; now split).
      rewrite F in I. destruct I.
    - split; [discriminate|]. intros H. exfalso.
      assert (I : In m (filter (Config.unset process_env) Config.requiredVars))
        by (rewrite F; now left).
      apply filter_In in I as [I U]. rewrite (H m I) in U. discriminate. }
  split.
  - rewrite R. split; intros H v Hv; apply unset_false; now apply H.
  - intros V. rewrite R in V. cbv zeta. unfold Config.config_mpesa. simpl.
    assert (K : forall v, In v Config.requiredVars ->
                process_env v = Some (or_else (process_env v) []) /\
                or_else (process_env v) [] <> [])
      by (intros v Hv; apply set_value; now apply V).
    destruct (K (lit "MPESA_CONSUMER_KEY")) as [E1 N1]; [simpl; tauto|].
    destruct (K (lit "MPESA_CONSUMER_SECRET")) as [E2 N2]; [simpl; tauto|].
    destruct (K (lit "MPESA_BUSINESS_SHORT_CODE")) as [E3 N3]; [simpl; tauto|].
    destruct (K (lit "MPESA_PASSKEY")) as [E4 N4]; [simpl; tauto|].
    repeat split; assumption.
Qed.


(** ** Requests on the wire *)

Section Wire_calls.

Variable config : MpesaConfig.t.
Variable upstream : provider.
Variable base64 : jsstring -> jsstring.
Variable format_YYYYMMDDHHmmss : Z -> jsstring.

Local Abbreviation getAccessToken :=
  (MpesaService.getAccessToken config upstream base64).
Local Abbreviation stkPushData := (MpesaService.stkPushData config).
Local Abbreviation queryData := (MpesaService.queryData config).
Local Abbreviation initiateSTKPush :=
  (MpesaService.initiateSTKPush config upstream base64 format_YYYYMMDDHHmmss).
Local Abbreviation querySTKPushStatus :=
  (MpesaService.querySTKPushStatus config upstream base64 format_YYYYMMDDHHmmss).
Local Abbreviation authorization := (basic config base64).
Local Abbreviation reachable :=
  (reachable config upstream base64 format_YYYYMMDDHHmmss).
Local Abbreviation well_formed := (well_formed config base64).

Local Open Scope Z_scope.

(** What a call of [getAccessToken] does to the world. *)
Lemma getAccessToken_effect (w : world) :
  match getAccessToken w with
  | (Returned token, w') =>
      token <> [] /\ accessToken (this w') = token /\
      clock w' < tokenExpiry (this w') /\
      clock w <= clock w' /\
      (w' = w \/
       sent w' = sent w ++ [OAuthGenerate authorization] /\
       tokenExpiry (this w') = clock w' + 55 * 60 * 1000)
  | (Thrown message, w') =>
      this w' = this w /\ clock w <= clock w' /\
      sent w' = sent w ++ [OAuthGenerate authorization] /\
      exists cause, message = lit "Authentication failed: " ++ cause
  end.
Proof.
  rewrite (@getAccessToken_run config upstream base64 w).
  destruct (truthy (accessToken (this w)) && (clock w <? tokenExpiry (this w))) eqn:E.
  - apply andb_true_iff in E as [T L]. apply Z.ltb_lt in L.
    repeat split; try lia; [|now left].
    intros N. rewrite N in T. discriminate.
  - cbv zeta. destruct (response _) as [data|message]; simpl.
    + destruct (if_truthy _) as [token|] eqn:T; simpl.
      * apply if_truthy_Some in T as [_ T]. repeat split; try lia; [exact T|].
        right. now split.
      * repeat split; try lia. now exists (lit "Failed to obtain access token").
    + repeat split; try lia. now exists message.
Qed.

(** X7.  A token that [getAccessToken] returns is not empty, is the cached
    one and has not expired; until its expiry every further call returns
    it again and changes nothing. *)
Theorem getAccessToken_fresh (w w' : world) (token : jsstring) :
  getAccessToken w = (Returned token, w') ->
  token <> [] /\
  accessToken (this w') = token /\
  clock w' < tokenExpiry (this w') /\
  forall d : N,
    clock w' + Z.of_N d < tokenExpiry (this w') ->
    getAccessToken (later d w') = (Returned token, later d w').
Proof.
  intros H. pose proof (getAccessToken_effect w) as E. rewrite H in E.
  destruct E as [N [A [F _]]]. repeat split; try assumption.
  intros d L. rewrite (@getAccessToken_run config upstream base64 (later d w')).
  simpl. rewrite A.
  assert (T : truthy token = true) by (destruct token; [congruence|reflexivity]).
  apply Z.ltb_lt in L. now rewrite T, L.
Qed.

Lemma bearer_token (token : jsstring) :
  token <> [] -> bearer (lit "Bearer " ++ token).
Proof. intros N. now exists token. Qed.

(** X8.  A call of [initiateSTKPush] or [querySTKPushStatus] sends at most
    one credential exchange and then at most one business request; when
    the exchange fails it sends nothing more and throws an error that
    names both failures. *)
Theorem requests_of_a_call (w : world) :
  (forall paymentRequest,
     let r := initiateSTKPush paymentRequest w in
     match getAccessToken w with
     | (Thrown _, _) =>
         sent (snd r) = sent w ++ [OAuthGenerate authorization] /\
         exists cause,
           fst r = Thrown (lit "Payment initiation failed: Authentication failed: "
                           ++ cause)
     | (Returned token, w1) =>
         (sent w1 = sent w \/ sent w1 = sent w ++ [OAuthGenerate authorization]) /\
         exists data,
           sent (snd r) = sent w1 ++ [ProcessRequest (lit "Bearer " ++ token) data] /\
           well_formed (ProcessRequest (lit "Bearer " ++ token) data) /\
           STKPushRequest.PhoneNumber data = PaymentRequest.phoneNumber paymentRequest /\
           STKPushRequest.Amount data = PaymentRequest.amount paymentRequest /\
           STKPushRequest.AccountReference data =
             PaymentRequest.accountReference paymentRequest /\
           STKPushRequest.TransactionDesc data =
             PaymentRequest.transactionDesc paymentRequest
     end) /\
  (forall checkoutRequestId,
     let r := querySTKPushStatus checkoutRequestId w in
     match getAccessToken w with
     | (Thrown _, _) =>
         sent (snd r) = sent w ++ [OAuthGenerate authorization] /\
         exists cause,
           fst r = Thrown (lit "Status query failed: Authentication failed: "
                           ++ cause)
     | (Returned token, w1) =>
         (sent w1 = sent w \/ sent w1 = sent w ++ [OAuthGenerate authorization]) /\
         exists data,
           sent (snd r) = sent w1 ++ [Query (lit "Bearer " ++ token) data] /\
           well_formed (Query (lit "Bearer " ++ token) data) /\
           QueryData.CheckoutRequestID data = checkoutRequestId
     end).
Proof.
  pose proof (getAccessToken_effect w) as E.
  split.
  - intros paymentRequest. cbv zeta.
    rewrite (@initiateSTKPush_run config upstream base64 format_YYYYMMDDHHmmss
               paymentRequest w).
    destruct (getAccessToken w) as [[token|message] w1].
    + destruct E as [N [_ [_ [_ S]]]]. split.
      { destruct S as [->|[S _]]; [now left|now right]. }
      cbv zeta. eexists. split; [|split].
      * destruct (response _); reflexivity.
      * split; [now apply bearer_token|]. repeat split.
      * repeat split.
    + destruct E as [_ [_ [S [cause ->]]]]. split; [exact S|].
      exists cause. simpl. reflexivity.
  - intros checkoutRequestId. cbv zeta.
    rewrite (@querySTKPushStatus_run config upstream base64 format_YYYYMMDDHHmmss
               checkoutRequestId w).
    destruct (getAccessToken w) as [[token|message] w1].
    + destruct E as [N [_ [_ [_ S]]]]. split.
      { destruct S as [->|[S _]]; [now left|now right]. }
      cbv zeta. eexists. split; [|split].
      * destruct (response _); reflexivity.
      * split; [now apply bearer_token|]. repeat split.
      * reflexivity.
    + destruct E as [_ [_ [S [cause ->]]]]. split; [exact S|].
      exists cause. simpl. reflexivity.
Qed.

(** What a call leaves of the world it started in. *)
Lemma initiateSTKPush_effect (paymentRequest : PaymentRequest.t) (w : world) :
  let w' := snd (initiateSTKPush paymentRequest w) in
  exists w1 rqs,
    w1 = snd (getAccessToken w) /\
    this w' = this w1 /\ clock w1 <= clock w' /\
    sent w' = sent w1 ++ rqs /\ Forall well_formed rqs.
Proof.
  cbv zeta.
  rewrite (@initiateSTKPush_run config upstream base64 format_YYYYMMDDHHmmss
             paymentRequest w).
  pose proof (getAccessToken_effect w) as E.
  destruct (getAccessToken w) as [[token|message] w1].
  - destruct E as [Hne _]. cbv zeta. exists w1. eexists. split; [reflexivity|].
    assert (L : forall n : N, clock w1 <= clock w1 + Z.of_N n) by (intros n; lia).
    destruct (response _); simpl; (split; [reflexivity|]);
      (split; [apply L|]); (split; [reflexivity|]);
      repeat constructor; now apply bearer_token.
  - exists w1, []. simpl. rewrite app_nil_r. repeat split; try lia. constructor.
Qed.

Lemma querySTKPushStatus_effect (checkoutRequestId : jsstring) (w : world) :
  let w' := snd (querySTKPushStatus checkoutRequestId w) in
  exists w1 rqs,
    w1 = snd (getAccessToken w) /\
    this w' = this w1 /\ clock w1 <= clock w' /\
    sent w' = sent w1 ++ rqs /\ Forall well_formed rqs.
Proof.
  cbv zeta.
  rewrite (@querySTKPushStatus_run config upstream base64 format_YYYYMMDDHHmmss
             checkoutRequestId w).
  pose proof (getAccessToken_effect w) as E.
  destruct (getAccessToken w) as [[token|message] w1].
  - destruct E as [Hne _]. cbv zeta. exists w1. eexists. split; [reflexivity|].
    assert (L : forall n : N, clock w1 <= clock w1 + Z.of_N n) by (intros n; lia).
    destruct (response _); simpl; (split; [reflexivity|]);
      (split; [apply L|]); (split; [reflexivity|]);
      repeat constructor; now apply bearer_token.
  - exists w1, []. simpl. rewrite app_nil_r. repeat split; try lia. constructor.
Qed.

Lemma getAccessToken_sent (w : world) :
  Forall well_formed (sent w) ->
  Forall well_formed (sent (snd (getAccessToken w))).
Proof.
  intros H. pose proof (getAccessToken_effect w) as E.
  destruct (getAccessToken w) as [[token|message] w1]; simpl.
  - destruct E as [_ [_ [_ [_ [->|[S _]]]]]]; [exact H|].
    rewrite S. apply Forall_app. split; [exact H|]. now repeat constructor.
  - destruct E as [_ [_ [S _]]].
    rewrite S. apply Forall_app. split; [exact H|]. now repeat constructor.
Qed.

Lemma getAccessToken_expiry (w : world) :
  tokenExpiry (this w) <= clock w + 55 * 60 * 1000 ->
  let w' := snd (getAccessToken w) in
  tokenExpiry (this w') <= clock w' + 55 * 60 * 1000.
Proof.
  intros H. cbv zeta. pose proof (getAccessToken_effect w) as E.
  destruct (getAccessToken w) as [[token|message] w1]; simpl.
  - destruct E as [_ [_ [_ [_ [->|[_ S]]]]]]; [exact H|]. rewrite S. lia.
  - destruct E as [T [L _]]. rewrite T. lia.
Qed.

(** X9.  Every request a service has sent is as the provider expects it: the
    credential exchange carries the Basic header of the configured key and
    secret; a push or a query carries a bearer token that is not empty, the
    configured short code, and the password that goes with its own
    timestamp. *)
Theorem reachable_requests_well_formed (w : world) :
  reachable w -> Forall well_formed (sent w).
Proof.
  induction 1 as [date|d w _ IH|w _ IH|paymentRequest w _ IH|checkoutRequestId w _ IH].
  - constructor.
  - exact IH.
  - now apply getAccessToken_sent.
  - destruct (initiateSTKPush_effect paymentRequest w) as [w1 [rqs [E [_ [_ [S F]]]]]].
    rewrite S. apply Forall_app. split; [|exact F].
    subst w1. now apply getAccessToken_sent.
  - destruct (querySTKPushStatus_effect checkoutRequestId w) as [w1 [rqs [E [_ [_ [S F]]]]]].
    rewrite S. apply Forall_app. split; [|exact F].
    subst w1. now apply getAccessToken_sent.
Qed.

(** X10.  The recorded expiry is never more than 55 minutes ahead of the
    clock. *)
Theorem reachable_expiry_bound (w : world) :
  reachable w -> tokenExpiry (this w) <= clock w + 55 * 60 * 1000.
Proof.
  induction 1 as [date|d w _ IH|w _ IH|paymentRequest w _ IH|checkoutRequestId w _ IH].
  - simpl. lia.
  - simpl. lia.
  - now apply getAccessToken_expiry.
  - destruct (initiateSTKPush_effect paymentRequest w) as [w1 [rqs [E [T [L _]]]]].
    pose proof (getAccessToken_expiry w IH) as B. cbv zeta in B.
    rewrite <- E in B. rewrite T. lia.
  - destruct (querySTKPushStatus_effect checkoutRequestId w) as [w1 [rqs [E [T [L _]]]]].
    pose proof (getAccessToken_expiry w IH) as B. cbv zeta in B.
    rewrite <- E in B. rewrite T. lia.
Qed.

(** X11.  Whatever [querySTKPushStatus] returns has the amount 0, no phone
    number, no receipt number and no date.  Its transaction id is the
    [MerchantRequestID] of the provider's answer to the query it sent last,
    for the given checkout request id, and it has that answer's
    [ResultDesc] as error message unless the status is [success]. *)
Theorem querySTKPushStatus_result (checkoutRequestId : jsstring) (w w' : world)
    (transactionStatus : TransactionStatus.t) :
  querySTKPushStatus checkoutRequestId w = (Returned transactionStatus, w') ->
  TransactionStatus.amount transactionStatus = num 0 /\
  TransactionStatus.phoneNumber transactionStatus = [] /\
  TransactionStatus.mpesaReceiptNumber transactionStatus = None /\
  TransactionStatus.transactionDate transactionStatus = None /\
  (TransactionStatus.errorMessage transactionStatus = None <->
   TransactionStatus.status transactionStatus = success) /\
  exists responseData authorization data,
    sent w' = removelast (sent w') ++ [Query authorization data] /\
    QueryData.CheckoutRequestID data = checkoutRequestId /\
    response (query upstream (removelast (sent w')) authorization data)
      = Returned responseData /\
    TransactionStatus.transactionId transactionStatus =
      QuerySTKResponse.MerchantRequestID responseData /\
    (TransactionStatus.status transactionStatus <> success ->
     TransactionStatus.errorMessage transactionStatus =
       Some (QuerySTKResponse.ResultDesc responseData)).
Proof.
  rewrite (@querySTKPushStatus_run config upstream base64 format_YYYYMMDDHHmmss
             checkoutRequestId w).
  destruct (getAccessToken w) as [[token|message] w1]; [|discriminate].
  cbv zeta. destruct (response _) as [responseData|message] eqn:R; [|discriminate].
  intros H. injection H as <- <-. simpl.
  split; [reflexivity|]. split; [reflexivity|]. split; [reflexivity|].
  split; [reflexivity|]. split.
  - destruct (eqb _ (lit "0")); [tauto|].
    destruct (eqb _ (lit "1032")); [split; discriminate|].
    destruct (eqb _ (lit "1")); split; discriminate.
  - exists responseData. do 2 eexists. rewrite removelast_last.
    split; [reflexivity|]. split; [reflexivity|]. split; [exact R|].
    split; [reflexivity|].
    destruct (eqb _ (lit "0")); [congruence|].
    destruct (eqb _ (lit "1032")); [reflexivity|].
    destruct (eqb _ (lit "1")); reflexivity.
Qed.

End Wire_calls.


(** ** Callback metadata *)

Section Metadata.

Variable StringToNumber : jsstring -> number.
Variable NumberToString : number -> jsstring.

Local Abbreviation ToNumber := (MpesaService.ToNumber StringToNumber).
Local Abbreviation ToString := (MpesaService.ToString NumberToString).
Local Abbreviation processSTKCallback :=
  (MpesaService.processSTKCallback StringToNumber NumberToString).

(** X12.  Unless the result code is 0 the metadata of a payload is not
    looked at: the result is that of the payload without metadata, with
    the amount 0 and no phone number. *)
Theorem processSTKCallback_ignores_metadata
    (metadata : option STKPushCallback.metadata) (callbackData : STKPushCallback.t) :
  strict_eq
    (STKPushCallback.ResultCode
       (STKPushCallback.stkCallback (STKPushCallback.Body callbackData)))
    (num 0) = false ->
  processSTKCallback (with_metadata metadata callbackData) =
  processSTKCallback (with_metadata None callbackData) /\
  exists transactionStatus,
    processSTKCallback (with_metadata metadata callbackData) =
      Returned transactionStatus /\
    TransactionStatus.amount transactionStatus = num 0 /\
    TransactionStatus.phoneNumber transactionStatus = [].
Proof.
  intros H.
  rewrite !(@processSTKCallback_returns StringToNumber NumberToString).
  cbv zeta. simpl STKPushCallback.ResultCode. rewrite H.
  split; [reflexivity|]. eexists. split; [reflexivity|]. split; reflexivity.
Qed.

(** X13.  A result has a receipt number and a date exactly when its status
    is [success], and an error message exactly when it is not. *)
Theorem processSTKCallback_receipt_or_error (callbackData : STKPushCallback.t) :
  exists transactionStatus,
    processSTKCallback callbackData = Returned transactionStatus /\
    (TransactionStatus.status transactionStatus = success <->
     TransactionStatus.mpesaReceiptNumber transactionStatus <> None) /\
    (TransactionStatus.status transactionStatus = success <->
     TransactionStatus.transactionDate transactionStatus <> None) /\
    (TransactionStatus.status transactionStatus = success <->
     TransactionStatus.errorMessage transactionStatus = None) /\
    TransactionStatus.transactionId transactionStatus =
      STKPushCallback.MerchantRequestID
        (STKPushCallback.stkCallback (STKPushCallback.Body callbackData)).
Proof.
  eexists. split; [apply processSTKCallback_returns|]. cbv zeta.
  set (code := STKPushCallback.ResultCode _).
  destruct (strict_eq code (num 0)), (strict_eq code (num 1032));
    cbn [TransactionStatus.status TransactionStatus.mpesaReceiptNumber
         TransactionStatus.transactionDate TransactionStatus.errorMessage
         TransactionStatus.transactionId];
    repeat split; intros; congruence.
Qed.

Lemma find_filter {A} (p q : A -> bool) (l : list A) :
  (forall x, p x = true -> q x = true) -> find p (filter q l) = find p l.
Proof.
  intros H. induction l as [|x l IH]; simpl; [reflexivity|].
  destruct (q x) eqn:Q; simpl.
  - now rewrite IH.
  - destruct (p x) eqn:P; [|exact IH]. apply H in P. congruence.
Qed.

Lemma last_named_known (name : string) (items : list STKPushCallback.item) :
  In name known_names ->
  last_named name (filter known items) = last_named name items.
Proof.
  intros I. unfold last_named. f_equal.
  rewrite <- filter_rev. apply find_filter. intros item E.
  unfold known. apply existsb_exists. now exists name.
Qed.

(** X14.  The result depends on the metadata only through the last item of
    each of the four names: two lists of items that agree on these give the
    same result, so that items of other names play no part. *)
Theorem processSTKCallback_last_items
    (items items' : list STKPushCallback.item) (callbackData : STKPushCallback.t) :
  (forall name, In name known_names -> last_named name items = last_named name items') ->
  processSTKCallback
    (with_metadata (Some {| STKPushCallback.Item := items |}) callbackData) =
  processSTKCallback
    (with_metadata (Some {| STKPushCallback.Item := items' |}) callbackData).
Proof.
  intros H. rewrite !(@processSTKCallback_returns StringToNumber NumberToString).
  cbv zeta. unfold metadata_items, extracted. simpl.
  rewrite !H by (simpl; tauto). reflexivity.
Qed.

End Metadata.


(** ** The error handler *)

Import ErrorMiddleware.

(** X15.  [errorHandler] always answers [success: false].  It passes on the
    status code and the message of an [ApiError]; for any other error the
    status is 400, 401 or 500 and the message is one of five fixed texts
    that depend on the error's name only.  The stack is sent in
    development only. *)
Theorem errorHandler_discloses (NODE_ENV : option jsstring) (timestamp : jsstring) :
  (forall e,
     ApiResponse.success (api_response (json (errorHandler NODE_ENV timestamp e)))
     = false) /\
  (forall a,
     status (errorHandler NODE_ENV timestamp (an_ApiError a)) = statusCode a /\
     ApiResponse.message
       (api_response (json (errorHandler NODE_ENV timestamp (an_ApiError a))))
     = message a) /\
  (forall name m m' st st',
     let r := errorHandler NODE_ENV timestamp (an_Error name m st) in
     let r' := errorHandler NODE_ENV timestamp (an_Error name m' st') in
     status r = status r' /\
     api_response (json r) = api_response (json r') /\
     In (status r) [400; 401; 500]%Z /\
     In (ApiResponse.message (api_response (json r)))
        [lit "Internal server error"; lit "Validation error"; lit "Unauthorized";
         lit "Invalid token"; lit "Token expired"]) /\
  (forall e,
     NODE_ENV <> Some (lit "development") ->
     response_stack (json (errorHandler NODE_ENV timestamp e)) = None).
Proof.
  split; [|split; [|split]].
  - intros [a|name m st]; unfold errorHandler; simpl; [reflexivity|].
    repeat match goal with |- context [if ?b then _ else _] => destruct b end;
      reflexivity.
  - intros a. split; reflexivity.
  - intros name m m' st st'. cbv zeta. unfold errorHandler.
    destruct (eqb name (lit "ValidationError"));
      [simpl; repeat split; tauto|].
    destruct (eqb name (lit "UnauthorizedError"));
      [simpl; repeat split; tauto|].
    destruct (eqb name (lit "JsonWebTokenError"));
      [simpl; repeat split; tauto|].
    destruct (eqb name (lit "TokenExpiredError"));
      simpl; repeat split; tauto.
  - intros e N. unfold errorHandler.
    destruct e as [a|name m st]; simpl.
    + destruct NODE_ENV as [v|]; [|reflexivity].
      destruct (eqb v (lit "development")) eqn:E; [|reflexivity].
      apply eqb_eq in E. congruence.
    + repeat match goal with
             | |- context [if eqb name ?s then _ else _] => destruct (eqb name s)
             end; simpl;
        (destruct NODE_ENV as [v|]; [|reflexivity]);
        (destruct (eqb v (lit "development")) eqn:E; [|reflexivity]);
        apply eqb_eq in E; congruence.
Qed.


(** ** The merchant endpoints *)

Lemma kenyanPhoneRegex_formats (s : jsstring) :
  kenyanPhoneRegex s = true ->
  exists t, subscriber t = true /\ formatPhoneNumber s = Returned (lit "254" ++ t).
Proof.
  intros R. apply validated_format. unfold validatePhoneNumber.
  now rewrite (kept_clean (regex_kept _ R)).
Qed.

Section Merchant.

Variable config : MpesaConfig.t.
Variable upstream : provider.
Variable base64 : jsstring -> jsstring.
Variable format_YYYYMMDDHHmmss : Z -> jsstring.
Variable destructure_TypeError : jsstring.
Variable replace_TypeError : PaymentController.any -> jsstring.
Variable parseFloat : PaymentController.any -> completion number.
Variable toISOString : Z -> jsstring.
Variable captureStackTrace : option jsstring.
Variable NODE_ENV : option jsstring.
Variable timestamp : jsstring.

Local Abbreviation initiateSTKPush :=
  (MpesaService.initiateSTKPush config upstream base64 format_YYYYMMDDHHmmss).
Local Abbreviation querySTKPushStatus :=
  (MpesaService.querySTKPushStatus config upstream base64 format_YYYYMMDDHHmmss).
Local Abbreviation new_ApiError := (PaymentController.new_ApiError captureStackTrace).
Local Abbreviation call_formatPhoneNumber :=
  (PaymentController.call_formatPhoneNumber replace_TypeError).
Local Abbreviation initiatePayment :=
  (PaymentController.initiatePayment config upstream base64 format_YYYYMMDDHHmmss
     destructure_TypeError replace_TypeError parseFloat toISOString
     captureStackTrace).
Local Abbreviation queryPaymentStatus :=
  (PaymentController.queryPaymentStatus config upstream base64 format_YYYYMMDDHHmmss
     toISOString captureStackTrace).
Local Abbreviation errorHandler := (ErrorMiddleware.errorHandler NODE_ENV timestamp).

Local Open Scope Z_scope.

(** What [initiateSTKPush] leaves behind. *)
Lemma initiateSTKPush_cases (paymentRequest : PaymentRequest.t) (w : world) :
  match initiateSTKPush paymentRequest w with
  | (Returned result, w') =>
      exists authorization data,
        sent w' <> sent w /\
        last (sent w') (OAuthGenerate []) = ProcessRequest authorization data /\
        STKPushRequest.PhoneNumber data = PaymentRequest.phoneNumber paymentRequest /\
        STKPushRequest.PartyA data = PaymentRequest.phoneNumber paymentRequest /\
        STKPushRequest.Amount data = PaymentRequest.amount paymentRequest
  | (Thrown message, w') =>
      sent w' <> sent w /\
      exists cause, message = lit "Payment initiation failed: " ++ cause
  end.
Proof.
  rewrite (@initiateSTKPush_run config upstream base64 format_YYYYMMDDHHmmss
             paymentRequest w).
  pose proof (@getAccessToken_effect config upstream base64 w) as G.
  assert (grows : forall (l l' : list request) rq, l ++ l' ++ [rq] <> l).
  { intros l l' rq E. apply (f_equal (@List.length _)) in E.
    rewrite !length_app in E. simpl in E. lia. }
  destruct (MpesaService.getAccessToken config upstream base64 w)
    as [[token|message] w1].
  - assert (S : exists l, sent w1 = sent w ++ l).
    { destruct G as [_ [_ [_ [_ [->|[S _]]]]]]; [exists []; now rewrite app_nil_r|].
      eexists. exact S. }
    destruct S as [l S]. cbv zeta.
    destruct (MpesaService.response _) as [responseData|message].
    + do 2 eexists. simpl. split; [|split; [apply last_last|]].
      * rewrite S, <- app_assoc. apply grows.
      * repeat split.
    + simpl. split; [rewrite S, <- app_assoc; apply grows|]. now eexists.
  - destruct G as [_ [_ [S _]]]. split; [rewrite S; apply (grows _ [])|].
    now eexists.
Qed.

(** When the call of [formatPhoneNumber] throws: on a string with the
    format error, on any other value with the engine's [TypeError]. *)
Lemma call_formatPhoneNumber_throws (phoneNumber : PaymentController.any)
    (message : jsstring) :
  call_formatPhoneNumber phoneNumber = Thrown message ->
  (exists phone,
     phoneNumber = PaymentController.JSString phone /\
     formatPhoneNumber phone = Thrown (lit "Invalid phone number format") /\
     message = lit "Invalid phone number format") \/
  ((forall phone, phoneNumber <> PaymentController.JSString phone) /\
   message = replace_TypeError phoneNumber).
Proof.
  destruct phoneNumber as [| |b|n|phone|elements|properties]; simpl; intros E;
    try (right; split; [discriminate|congruence]).
  left. exists phone. split; [reflexivity|].
  pose proof (formatPhoneNumber_cases phone) as F. cbv zeta in F.
  destruct F as [[_ F]|[[_ [_ F]]|[_ [_ F]]]]; try congruence.
  assert (M : message = lit "Invalid phone number format") by congruence.
  subst message. now split.
Qed.



(** X17.  Whenever the call of [formatPhoneNumber] on the body's phone
    number throws, the client is answered, after [asyncHandler] and
    [errorHandler], with the status 500 and the message thrown (the
    fallback for an empty one), and the service is not called.  The message
    is "Invalid phone number format" for a string, and the engine's
    [TypeError] for every value that is not a string, a number of twelve
    digits included. *)
Theorem initiatePayment_invalid_phone (req_body : PaymentController.body)
    (message : jsstring) (w : world) :
  call_formatPhoneNumber (PaymentController.phoneNumber req_body) = Thrown message ->
  exists response,
    asyncHandler (initiatePayment (Some req_body)) errorHandler w
      = (inr response, w) /\
    status response = 500 /\
    ApiResponse.success (api_response (json response)) = false /\
    ApiResponse.message (api_response (json response))
      = or_else (Some message) (lit "Payment initiation failed") /\
    (forall phone,
       PaymentController.phoneNumber req_body = PaymentController.JSString phone ->
       ApiResponse.message (api_response (json response))
         = lit "Invalid phone number format") /\
    ((forall phone,
        PaymentController.phoneNumber req_body <> PaymentController.JSString phone) ->
     message = replace_TypeError (PaymentController.phoneNumber req_body)).
Proof.
  intros E. unfold asyncHandler, PaymentController.initiatePayment. rewrite E.
  eexists. split; [reflexivity|]. split; [reflexivity|]. split; [reflexivity|].
  split; [reflexivity|].
  destruct (call_formatPhoneNumber_throws _ E) as [[phone [Hp [_ ->]]]|[Hn ->]].
  - split; [reflexivity|]. intros Hn. now elim (Hn phone).
  - split; [|reflexivity]. intros phone Hp. now elim (Hn phone).
Qed.

(** X18.  A phone number that is a string the route's pattern accepts is
    never rejected by the controller's formatting.  When [parseFloat] reads
    the amount, a request is sent to the provider in every case: the push
    request carries "254" and nine digits, as the pattern of
    [phoneNumberSchema] wants them, and the parsed amount, and an error can
    only come from the service. *)
Theorem initiatePayment_route_valid (req_body : PaymentController.body)
    (phone : jsstring) (amount : number) (w : world) :
  PaymentController.phoneNumber req_body = PaymentController.JSString phone ->
  kenyanPhoneRegex phone = true ->
  parseFloat (PaymentController.amount req_body) = Returned amount ->
  sent (snd (initiatePayment (Some req_body) w)) <> sent w /\
  match fst (initiatePayment (Some req_body) w) with
  | Fulfilled r =>
      exists authorization data,
        last (sent (snd (initiatePayment (Some req_body) w))) (OAuthGenerate [])
          = ProcessRequest authorization data /\
        phoneNumberSchema_pattern (STKPushRequest.PhoneNumber data) = true /\
        STKPushRequest.PartyA data = STKPushRequest.PhoneNumber data /\
        STKPushRequest.Amount data = amount
  | Rejected e =>
      exists cause,
        error_message e = lit "Payment initiation failed: " ++ cause
  end.
Proof.
  intros Hp R A. destruct (kenyanPhoneRegex_formats _ R) as [t [St F]].
  unfold PaymentController.initiatePayment, PaymentController.call_formatPhoneNumber.
  rewrite Hp, F, A.
  match goal with
  | |- context [MpesaService.initiateSTKPush _ _ _ _ ?p w] =>
      pose proof (initiateSTKPush_cases p w) as P;
      destruct (MpesaService.initiateSTKPush config upstream base64
                  format_YYYYMMDDHHmmss p w) as [[result|message] w']
  end; simpl.
  - destruct P as [authorization [data [S [L [P1 [P2 P3]]]]]].
    split; [exact S|]. exists authorization, data. split; [exact L|].
    simpl in P1, P2, P3. rewrite P1. split; [now apply schema_pattern_254|].
    split; [exact P2|exact P3].
  - destruct P as [S [cause ->]]. split; [exact S|]. now exists cause.
Qed.


(** X19.  Without a checkout request id [queryPaymentStatus] makes an
    [ApiError] of status 400, catches it itself and rejects with one of
    status 500 and the same message; the client is answered 500 and the
    service is not called. *)
Theorem queryPaymentStatus_missing_id (checkoutRequestId : option jsstring)
    (w : world) :
  if_truthy checkoutRequestId = None ->
  queryPaymentStatus checkoutRequestId w =
    (Rejected
       (an_ApiError (new_ApiError (lit "Checkout request ID is required") 500)),
     w) /\
  exists response,
    asyncHandler (queryPaymentStatus checkoutRequestId) errorHandler w
      = (inr response, w) /\
    status response = 500 /\
    ApiResponse.message (api_response (json response))
      = lit "Checkout request ID is required".
Proof.
  intros E. unfold asyncHandler, PaymentController.queryPaymentStatus. rewrite E.
  split; [reflexivity|]. eexists. split; [reflexivity|]. split; reflexivity.
Qed.


End Merchant.


(** ** Further concrete runs *)

Lemma validated_phone_is_canonical_witness :
  validatePhoneNumber (lit "+254 712-345-678") = true /\
  exists t,
    subscriber t = true /\
    formatPhoneNumber (lit "+254 712-345-678") = Returned (lit "254" ++ t) /\
    phoneNumberSchema_pattern (lit "254" ++ t) = true /\
    validatePhoneNumber (lit "254" ++ t) = true.
Proof.
  split; [reflexivity|].
  apply (@validated_phone_is_canonical (lit "+254 712-345-678")). reflexivity.
Defined.

Lemma spellings_share_format_not_key_witness :
  is_1_or_7 55%N = true /\
  formatPhoneNumber (lit "0712 345 678") = Returned (lit "254712345678") /\
  formatPhoneNumber (lit "254712 345 678") = Returned (lit "254712345678") /\
  AuthMiddleware.keyGenerator (lit "10.0.0.1") (Some (lit "0712 345 678")) <>
  AuthMiddleware.keyGenerator (lit "10.0.0.1") (Some (lit "254712 345 678")).
Proof.
  split; [reflexivity|].
  apply (@spellings_share_format_not_key (lit "10.0.0.1") (lit "12 345 678") 55%N).
  reflexivity.
Defined.

Lemma sanitizeString_not_idempotent_witness :
  unsafe 60%N = true /\ lit "b" <> [] /\
  Forall (fun c => is_word c = true) (lit "b") /\
  sanitizeString (lit "< b") = lit " b" /\
  sanitizeString (sanitizeString (lit "< b")) = lit "b" /\
  sanitizeString (sanitizeString (lit "< b")) <> sanitizeString (lit "< b").
Proof.
  assert (W : Forall (fun c => is_word c = true) (lit "b"))
    by (repeat constructor).
  assert (Hne : lit "b" <> []) by discriminate.
  split; [reflexivity|]. split; [exact Hne|]. split; [exact W|].
  apply (@sanitizeString_not_idempotent 60%N (lit "b")); [reflexivity|exact Hne|exact W].
Defined.

Lemma getAccessToken_fresh_witness :
  let upstream := Stub.provider Stub.token Stub.accepted (Stub.status "0") in
  let w := constructor 1700000000000 in
  let w' := snd (getAccessToken Stub.config upstream Stub.base64 w) in
  getAccessToken Stub.config upstream Stub.base64 w = (Returned (lit "t0k3n"), w') /\
  lit "t0k3n" <> [] /\
  accessToken (this w') = lit "t0k3n" /\
  (clock w' < tokenExpiry (this w'))%Z /\
  forall d : N,
    (clock w' + Z.of_N d < tokenExpiry (this w'))%Z ->
    getAccessToken Stub.config upstream Stub.base64 (later d w') =
      (Returned (lit "t0k3n"), later d w').
Proof.
  intros upstream w w'.
  assert (H : getAccessToken Stub.config upstream Stub.base64 w
              = (Returned (lit "t0k3n"), w')) by reflexivity.
  split; [exact H|].
  exact (@getAccessToken_fresh Stub.config upstream Stub.base64 w w' (lit "t0k3n") H).
Defined.

Lemma reachable_requests_well_formed_witness :
  let upstream := Stub.provider Stub.token Stub.accepted (Stub.status "0") in
  let w :=
    snd (initiateSTKPush Stub.config upstream Stub.base64 Stub.format_YYYYMMDDHHmmss
           Stub.paymentRequest (constructor 1700000000000)) in
  List.length (sent w) = 2%nat /\
  Forall (well_formed Stub.config Stub.base64) (sent w).
Proof.
  intros upstream w. split; [reflexivity|].
  apply (@reachable_requests_well_formed Stub.config upstream Stub.base64
           Stub.format_YYYYMMDDHHmmss w).
  apply reach_initiateSTKPush, reach_constructor.
Defined.

Lemma reachable_expiry_bound_witness :
  let upstream := Stub.provider Stub.token Stub.accepted (Stub.status "0") in
  let w :=
    later 1000
      (snd (querySTKPushStatus Stub.config upstream Stub.base64
              Stub.format_YYYYMMDDHHmmss (lit "ws_CO_191220191020363925")
              (constructor 1700000000000))) in
  accessToken (this w) = lit "t0k3n" /\
  (tokenExpiry (this w) <= clock w + 55 * 60 * 1000)%Z.
Proof.
  intros upstream w. split; [reflexivity|].
  apply (@reachable_expiry_bound Stub.config upstream Stub.base64
           Stub.format_YYYYMMDDHHmmss w).
  apply reach_later, reach_querySTKPushStatus, reach_constructor.
Defined.

Lemma querySTKPushStatus_result_witness :
  let upstream := Stub.provider Stub.token Stub.accepted (Stub.status "1032") in
  let r :=
    querySTKPushStatus Stub.config upstream Stub.base64 Stub.format_YYYYMMDDHHmmss
      (lit "ws_CO_191220191020363925") (constructor 0) in
  let transactionStatus :=
    {| TransactionStatus.transactionId := lit "29115-34620561-1";
       TransactionStatus.status := cancelled;
       TransactionStatus.amount := num 0;
       TransactionStatus.phoneNumber := [];
       TransactionStatus.mpesaReceiptNumber := None;
       TransactionStatus.transactionDate := None;
       TransactionStatus.errorMessage := Some (lit "The result of the request") |} in
  r = (Returned transactionStatus, snd r) /\
  exists responseData authorization data,
    sent (snd r) = removelast (sent (snd r)) ++ [Query authorization data] /\
    QueryData.CheckoutRequestID data = lit "ws_CO_191220191020363925" /\
    MpesaService.response
      (query upstream (removelast (sent (snd r))) authorization data)
      = Returned responseData /\
    TransactionStatus.transactionId transactionStatus =
      QuerySTKResponse.MerchantRequestID responseData /\
    (TransactionStatus.status transactionStatus <> success ->
     TransactionStatus.errorMessage transactionStatus =
       Some (QuerySTKResponse.ResultDesc responseData)).
Proof.
  intros upstream r transactionStatus.
  assert (H : r = (Returned transactionStatus, snd r)) by reflexivity.
  split; [exact H|].
  apply (@querySTKPushStatus_result Stub.config upstream Stub.base64
           Stub.format_YYYYMMDDHHmmss (lit "ws_CO_191220191020363925")
           (constructor 0) (snd r) transactionStatus H).
Defined.

Lemma processSTKCallback_ignores_metadata_witness :
  strict_eq
    (STKPushCallback.ResultCode
       (STKPushCallback.stkCallback (STKPushCallback.Body (Stub.callback (num 1)))))
    (num 0) = false /\
  processSTKCallback Stub.StringToNumber Stub.NumberToString
    (with_metadata (Some {| STKPushCallback.Item := Stub.items |})
       (Stub.callback (num 1))) =
  processSTKCallback Stub.StringToNumber Stub.NumberToString
    (with_metadata None (Stub.callback (num 1))).
Proof.
  split; [reflexivity|].
  apply (@processSTKCallback_ignores_metadata Stub.StringToNumber Stub.NumberToString
           (Some {| STKPushCallback.Item := Stub.items |}) (Stub.callback (num 1))).
  reflexivity.
Defined.

Lemma processSTKCallback_last_items_witness :
  (forall name, In name known_names ->
     last_named name Stub.items = last_named name [Stub.item "Amount" 100]) /\
  processSTKCallback Stub.StringToNumber Stub.NumberToString
    (with_metadata (Some {| STKPushCallback.Item := Stub.items |})
       (Stub.callback (num 0))) =
  processSTKCallback Stub.StringToNumber Stub.NumberToString
    (with_metadata (Some {| STKPushCallback.Item := [Stub.item "Amount" 100] |})
       (Stub.callback (num 0))).
Proof.
  assert (H : forall name, In name known_names ->
                last_named name Stub.items = last_named name [Stub.item "Amount" 100]).
  { intros name I. simpl in I.
    destruct I as [<-|[<-|[<-|[<-|[]]]]]; reflexivity. }
  split; [exact H|].
  exact (@processSTKCallback_last_items Stub.StringToNumber Stub.NumberToString
           Stub.items [Stub.item "Amount" 100] (Stub.callback (num 0)) H).
Defined.

Lemma initiatePayment_invalid_phone_witness :
  let upstream := Stub.provider Stub.token Stub.accepted (Stub.status "0") in
  let w := constructor 1700000000000 in
  let phoneNumber := PaymentController.JSNumber (num 254712345678) in
  PaymentController.call_formatPhoneNumber Stub.replace_TypeError
    (PaymentController.phoneNumber (Stub.body phoneNumber))
    = Thrown (lit "phoneNumber.replace is not a function") /\
  exists response,
    asyncHandler
      (PaymentController.initiatePayment Stub.config upstream Stub.base64
         Stub.format_YYYYMMDDHHmmss Stub.destructure_TypeError
         Stub.replace_TypeError Stub.parseFloat Stub.toISOString None
         (Some (Stub.body phoneNumber)))
      (errorHandler (Some (lit "production")) (lit "2024-01-01T12:00:00.000Z")) w
      = (inr response, w) /\
    status response = 500%Z /\
    ApiResponse.success (api_response (json response)) = false /\
    ApiResponse.message (api_response (json response))
      = lit "phoneNumber.replace is not a function".
Proof.
  intros upstream w phoneNumber.
  assert (H : PaymentController.call_formatPhoneNumber Stub.replace_TypeError
                (PaymentController.phoneNumber (Stub.body phoneNumber))
              = Thrown (lit "phoneNumber.replace is not a function"))
    by reflexivity.
  split; [exact H|].
  destruct (@initiatePayment_invalid_phone Stub.config upstream Stub.base64
              Stub.format_YYYYMMDDHHmmss Stub.destructure_TypeError
              Stub.replace_TypeError Stub.parseFloat Stub.toISOString None
              (Some (lit "production")) (lit "2024-01-01T12:00:00.000Z")
              (Stub.body phoneNumber) (lit "phoneNumber.replace is not a function")
              w H) as [response [H1 [H2 [H3 [H4 _]]]]].
  exists response. repeat split; assumption.
Defined.

Lemma initiatePayment_route_valid_witness :
  let upstream := Stub.provider Stub.token Stub.accepted (Stub.status "0") in
  let w := constructor 1700000000000 in
  let req_body := Stub.body (PaymentController.JSString (lit "0712345678")) in
  let r :=
    PaymentController.initiatePayment Stub.config upstream Stub.base64
      Stub.format_YYYYMMDDHHmmss Stub.destructure_TypeError Stub.replace_TypeError
      Stub.parseFloat Stub.toISOString None (Some req_body) w in
  PaymentController.phoneNumber req_body
    = PaymentController.JSString (lit "0712345678") /\
  kenyanPhoneRegex (lit "0712345678") = true /\
  Stub.parseFloat (PaymentController.amount req_body) = Returned (num 100) /\
  (exists response, fst r = Fulfilled response /\ status response = 200%Z) /\
  sent (snd r) <> sent w.
Proof.
  intros upstream w req_body r.
  split; [reflexivity|]. split; [reflexivity|]. split; [reflexivity|].
  split; [eexists; split; reflexivity|].
  apply (@initiatePayment_route_valid Stub.config upstream Stub.base64
           Stub.format_YYYYMMDDHHmmss Stub.destructure_TypeError
           Stub.replace_TypeError Stub.parseFloat Stub.toISOString None
           req_body (lit "0712345678") (num 100) w); reflexivity.
Defined.

Lemma queryPaymentStatus_missing_id_witness :
  let upstream := Stub.provider Stub.token Stub.accepted (Stub.status "0") in
  let w := constructor 1700000000000 in
  if_truthy (Some []) = None /\
  PaymentController.queryPaymentStatus Stub.config upstream Stub.base64
    Stub.format_YYYYMMDDHHmmss Stub.toISOString None (Some []) w =
  (Rejected
     (an_ApiError
        (PaymentController.new_ApiError None (lit "Checkout request ID is required")
           500)),
   w).
Proof.
  intros upstream w. split; [reflexivity|].
  apply (@queryPaymentStatus_missing_id Stub.config upstream Stub.base64
           Stub.format_YYYYMMDDHHmmss Stub.toISOString None
           (Some (lit "production")) (lit "2024-01-01T12:00:00.000Z") (Some []) w).
  reflexivity.
Defined.
